(** * neutorch: CREMI patch sampling and the ViT shape contract

    A shallow embedding of [neutorch/dataset/segmentation.py] and
    [neutorch/model/ViT.py].

    - [Py]           : the fragment of Python the two files rely on
                       (exceptions, [assert], slices, [zip], tuple equality).
    - [Float]        : IEEE-754 binary32 / binary64 values, on [SpecFloat].
    - [CremiDataset] : the constructor and the two sampling properties, over
                       an explicit world: a store of volume objects, a store
                       of patch objects, the state of the process-wide random
                       generator and the calls made to the collaborating
                       classes, whose behaviour is a parameter.
    - [SpecModel]    : those collaborators as the specification has them.
    - [Torch], [ViT] : the network of [ViT.py] read on tensor shapes. *)

From Stdlib Require Import ZArith NArith QArith Qabs List String Bool Lia.
From Stdlib Require Import SpecFloat.
From stdpp Require Import base list.
Import ListNotations.

(* ===================================================================== *)
(** ** Python fragment *)
(* ===================================================================== *)

Module Py.

(** The exception classes that can leave the modelled code. *)
Inductive exn : Set :=
| AssertionError
| IndexError
| ValueError
| ZeroDivisionError
| OSError
| KeyError
| SizeError
| ShapeError
| RuntimeError
| EinopsError
(** What a [Rearrange] layer raises on a tensor with another number of axes
    than its pattern: a [KeyError] from einops 0.7 on, an [EinopsError]
    before. *)
| AxesError.

(** A computation either returns or raises. *)
Inductive result (A : Type) : Type :=
| Ok (a : A)
| Raise (e : exn).
Arguments Ok {A} a.
Arguments Raise {A} e.

Definition bind {A B} (r : result A) (k : A -> result B) : result B :=
  match r with
  | Ok a => k a
  | Raise e => Raise e
  end.

(** [assert b] *)
Definition assert (b : bool) : result unit :=
  if b then Ok tt else Raise AssertionError.

Definition returns {A} (r : result A) : Prop := exists a, r = Ok a.

Definition is_ok {A} (r : result A) : bool :=
  match r with
  | Ok _ => true
  | Raise _ => false
  end.

(** Stateful computations that may raise: the state after an exception is
    not observed by any caller in the modelled code. *)
Definition M (S A : Type) : Type := S -> result (A * S).

Definition ret {S A} (a : A) : M S A := fun s => Ok (a, s).

Definition mbind {S A B} (c : M S A) (k : A -> M S B) : M S B :=
  fun s => match c s with
           | Ok (a, s') => k a s'
           | Raise e => Raise e
           end.

Definition lift {S A} (r : result A) : M S A :=
  fun s => match r with
           | Ok a => Ok (a, s)
           | Raise e => Raise e
           end.

(** The value of a computation run from a state. *)
Definition eval {S A} (c : M S A) (s : S) : result A :=
  match c s with
  | Ok (a, _) => Ok a
  | Raise e => Raise e
  end.

(** A tuple of ints. *)
Definition tuple := list Z.

(** [t[:n]] for a literal [n >= 0]. *)
Definition slice_to {A} (n : nat) (t : list A) : list A := take n t.

(** [t[-n:]] for a literal [n > 0]: the start [len(t) - n] is clamped at 0. *)
Definition slice_last {A} (n : nat) (t : list A) : list A :=
  drop (length t - n) t.

(** [tuple(f(a, b, c) for a, b, c in zip(x, y, z))]: [zip] stops at the
    shortest argument. *)
Fixpoint zip3_with {A B C D} (f : A -> B -> C -> D)
  (x : list A) (y : list B) (z : list C) : list D :=
  match x, y, z with
  | a :: x', b :: y', c :: z' => f a b c :: zip3_with f x' y' z'
  | _, _, _ => []
  end.

(** [s == t] on tuples of ints. *)
Fixpoint tuple_eqb (s t : tuple) : bool :=
  match s, t with
  | [], [] => true
  | a :: s', b :: t' => Z.eqb a b && tuple_eqb s' t'
  | _, _ => false
  end.

(** The process-wide generator of the [random] module, as the tape of the
    numbers it is going to produce. *)
Definition Tape := list nat.

Definition draw (t : Tape) : nat * Tape :=
  match t with
  | [] => (O, [])
  | d :: t' => (d, t')
  end.

End Py.

Declare Scope py_scope.
Delimit Scope py_scope with py.
Notation "x <- c ;; k" := (Py.mbind c (fun x => k))
  (at level 100, c at next level, right associativity) : py_scope.
Notation "c ;;; k" := (Py.mbind c (fun _ => k))
  (at level 100, right associativity) : py_scope.

(* ===================================================================== *)
(** ** Floating point *)
(* ===================================================================== *)

Module Float.

(** [np.float32]: binary32, 24 bits of precision. *)
Definition float32 := spec_float.
Definition prec32 : Z := 24.
Definition emax32 : Z := 128.

(** Python [float]: binary64, 53 bits of precision. *)
Definition float64 := spec_float.
Definition prec64 : Z := 53.
Definition emax64 : Z := 1024.

(** Conversion of an integer, rounding to nearest even. *)
Definition f32_of_Z (z : Z) : float32 := binary_normalize prec32 emax32 z 0 false.
Definition f64_of_Z (z : Z) : float64 := binary_normalize prec64 emax64 z 0 false.

Definition f32_div (x y : float32) : float32 := SFdiv prec32 emax32 x y.

(** [np.float32(z) / 255.]: what [segmentation.py] stores for a raw
    intensity [z]. *)
Definition normalized (z : Z) : float32 :=
  SFdiv prec32 emax32 (f32_of_Z z) (f32_of_Z 255).

(** The literals of [segmentation.py]. *)
Definition f64_0_5 : float64 := binary_normalize prec64 emax64 1 (-1) false.
Definition f64_1 : float64 := f64_of_Z 1.
Definition f32_255 : float32 := f32_of_Z 255.

(** The rational number that a finite float stands for. *)
Definition to_Q (x : spec_float) : option Q :=
  match x with
  | S754_zero _ => Some 0%Q
  | S754_finite s m e =>
      Some (inject_Z (if s then Zneg m else Zpos m) * Qpower 2 e)%Q
  | S754_infinity _ => None
  | S754_nan => None
  end.

(** [x > y] and [x < y]: false as soon as one side is a NaN. *)
Definition gt (x y : spec_float) : bool := SFltb y x.
Definition lt (x y : spec_float) : bool := SFltb x y.
Definition le (x y : spec_float) : bool := SFleb x y.

End Float.

(* ===================================================================== *)
(** ** neutorch/dataset/segmentation.py *)
(* ===================================================================== *)

(** *** Arrays

    An array is its shape and its elements in row-major order; a
    [chunkflow] [Chunk] is such an array. *)
Module Array.
Import Py Float.

Record ndarray (A : Type) : Type := { shape : tuple; data : list A }.
Arguments shape {A} _.
Arguments data {A} _.

Definition Chunk := ndarray.

(** [a.astype(np.float32)] on an integer array. *)
Definition astype_float32 (a : Chunk Z) : Chunk float32 :=
  {| shape := shape a; data := map f32_of_Z (data a) |}.

(** [a / d] on a binary32 array and a scalar: the quotient stays binary32. *)
Definition true_divide (a : Chunk float32) (d : float32) : Chunk float32 :=
  {| shape := shape a; data := map (fun x => f32_div x d) (data a) |}.

End Array.

(** *** The names imported from [neutorch.dataset.transform] *)
Module Transform.
Import Float.

(** The constructor calls that [_prepare_transform] writes down. [OneOf] and
    [Compose] take the list of their members; the other arguments are the
    keyword arguments that the source passes. *)
#[warnings="-register-all"]
Inductive t : Type :=
| NormalizeTo01 (probability : float64)
| AdjustBrightness
| AdjustContrast
| Gamma
| OneOf (transforms : list t)
| Noise
| GaussianBlur2D
| BlackBox
| Perspective2D
| Flip
| Transpose
| MissAlignment
| Compose (transforms : list t).

(** [isinstance(x, Compose)] *)
Definition isinstance_Compose (x : t) : bool :=
  match x with
  | Compose _ => true
  | _ => false
  end.

(** The members of a [Compose] or of a [OneOf]. *)
Definition members (x : t) : list t :=
  match x with
  | Compose transforms => transforms
  | OneOf transforms => transforms
  | _ => []
  end.

(** The intensity and noise transforms, and the geometric ones. *)
Definition intensity (x : t) : bool :=
  match x with
  | NormalizeTo01 _ | AdjustBrightness | AdjustContrast | Gamma | BlackBox => true
  | OneOf [Noise; GaussianBlur2D] => true
  | _ => false
  end.

Definition geometric (x : t) : bool :=
  match x with
  | Perspective2D | Flip | Transpose | MissAlignment => true
  | _ => false
  end.

End Transform.

(** *** [GroundTruthVolume] *)
Module GroundTruthVolume.
Import Py Float Array.

(** Modelled from the spec: the class [GroundTruthVolume] of
    [neutorch/dataset/ground_truth_volume.py] is not among the sources. The
    spec has it own one (image, label) pair and the configured pre-transform
    patch size, built once at load time and read-only afterwards; nothing is
    checked when it is built. *)
Record t : Type := {
  image : Chunk float32;
  label : Chunk Z;
  patch_size : tuple
}.

End GroundTruthVolume.

Module CremiDataset.
Import Py Float Array.
Local Open Scope py_scope.
Local Open Scope string_scope.
Local Open Scope Z_scope.

(** What [segmentation.py] takes from outside itself: the volumes on disk
    behind [Chunk.from_h5], and the behaviour of the patch, transform and
    volume classes, whose code is not among the sources. A patch is an
    object of some type [Patch] with a [shape]; the three operations called
    on it work on its value and on the random generator, and may raise. *)
Class Collaborators : Type := {
  Patch : Type;
  (** [patch.shape] *)
  shape : Patch -> tuple;
  (** [transform.shrink_size] *)
  shrink_size : Transform.t -> tuple;
  (** [transform(patch)]: the patch after the in-place update. *)
  transform_call : Transform.t -> Patch -> Tape -> result (Patch * Tape);
  (** [volume.random_patch]: a new patch. *)
  random_patch : GroundTruthVolume.t -> Tape -> result (Patch * Tape);
  (** [patch.apply_delayed_shrink_size()]: the patch after the in-place crop. *)
  apply_delayed_shrink_size : Patch -> result Patch;
  (** [Chunk.from_h5(file, dataset_path=...)] *)
  from_h5 : string -> string -> result (Chunk Z)
}.

(** [patch_size: Union[int, tuple]] *)
Inductive patch_size_arg : Type :=
| PyInt (p : Z)
| PyTuple (p : tuple).

(** [if isinstance(patch_size, int): patch_size = (patch_size,) * 3] *)
Definition broadcast (patch_size : patch_size_arg) : tuple :=
  match patch_size with
  | PyInt p => [p; p; p]
  | PyTuple p => p
  end.

(** The object built by [CremiDataset.__init__]. Volumes are held by
    reference (their index in the store of the world). *)
Record t : Type := {
  transform : Transform.t;
  patch_size : tuple;
  training_volumes : list nat;
  validation_volumes : list nat
}.

(** A call into a collaborator that returned, with the objects involved. *)
Inductive Call : Type :=
| call_random_patch (volume patch : nat)
| call_transform (patch : nat)
| call_apply_delayed_shrink_size (patch : nat).

(** [self._prepare_transform()]: the value it assigns to [self.transform]. *)
Definition _prepare_transform : Transform.t :=
  Transform.Compose [
    Transform.NormalizeTo01 f64_1;
    Transform.AdjustBrightness;
    Transform.AdjustContrast;
    Transform.Gamma;
    Transform.OneOf [
      Transform.Noise;
      Transform.GaussianBlur2D
    ];
    Transform.BlackBox;
    Transform.Perspective2D;
    Transform.Flip;
    Transform.Transpose;
    Transform.MissAlignment
  ].

(** The position of a member of the pipeline. *)
Definition position (i : nat) (x : Transform.t) : Prop :=
  Transform.members _prepare_transform !! i = Some x.

Definition fileA := "./data/cremi/sample_A.hdf".
Definition fileB := "./data/cremi/sample_B.hdf".
Definition fileC := "./data/cremi/sample_C.hdf".
Definition files : list string := [fileA; fileB; fileC].

(** [tuple(p + s0 + s1 for p, s0, s1 in zip(patch_size,
    shrink_size[:3], shrink_size[-3:]))] *)
Definition patch_size_before_transform (patch_size shrink : tuple) : tuple :=
  zip3_with (fun p s0 s1 => p + s0 + s1)
    patch_size (slice_to 3 shrink) (slice_last 3 shrink).

(** The world the dataset lives in: the volume objects and the patch objects
    by reference, the random generator and the calls made so far. *)
Record World (Patch : Type) : Type := {
  w_volumes : list GroundTruthVolume.t;
  w_patches : list Patch;
  w_tape : Tape;
  w_calls : list Call
}.
Arguments w_volumes {Patch} _.
Arguments w_patches {Patch} _.
Arguments w_tape {Patch} _.
Arguments w_calls {Patch} _.

Section WithCollaborators.
Context {C : Collaborators}.

Local Abbreviation world := (World Patch).

(** [GroundTruthVolume(image, label, patch_size=...)]: a new object. *)
Definition new_volume (v : GroundTruthVolume.t) : M world nat :=
  fun w => Ok (length (w_volumes w),
               {| w_volumes := w_volumes w ++ [v];
                  w_patches := w_patches w;
                  w_tape := w_tape w;
                  w_calls := w_calls w |}).

(** [random.choice(seq)] *)
Definition random_choice {A} (seq : list A) : M world A :=
  fun w =>
    let (d, tape) := draw (w_tape w) in
    match seq !! (d mod length seq)%nat with
    | None => Raise IndexError
    | Some x => Ok (x, {| w_volumes := w_volumes w;
                          w_patches := w_patches w;
                          w_tape := tape;
                          w_calls := w_calls w |})
    end.

(** [volume.random_patch] *)
Definition volume_random_patch (volume : nat) : M world nat :=
  fun w =>
    match w_volumes w !! volume with
    | None => Raise RuntimeError
    | Some v =>
        match random_patch v (w_tape w) with
        | Raise e => Raise e
        | Ok (p, tape) =>
            let patch := length (w_patches w) in
            Ok (patch, {| w_volumes := w_volumes w;
                          w_patches := w_patches w ++ [p];
                          w_tape := tape;
                          w_calls := w_calls w ++ [call_random_patch volume patch] |})
        end
    end.

(** [transform(patch)] *)
Definition call (transform : Transform.t) (patch : nat) : M world unit :=
  fun w =>
    match w_patches w !! patch with
    | None => Raise RuntimeError
    | Some p =>
        match transform_call transform p (w_tape w) with
        | Raise e => Raise e
        | Ok (p', tape) =>
            Ok (tt, {| w_volumes := w_volumes w;
                       w_patches := <[patch := p']> (w_patches w);
                       w_tape := tape;
                       w_calls := w_calls w ++ [call_transform patch] |})
        end
    end.

(** [patch.apply_delayed_shrink_size()] *)
Definition patch_apply_delayed_shrink_size (patch : nat) : M world unit :=
  fun w =>
    match w_patches w !! patch with
    | None => Raise RuntimeError
    | Some p =>
        match apply_delayed_shrink_size p with
        | Raise e => Raise e
        | Ok p' =>
            Ok (tt, {| w_volumes := w_volumes w;
                       w_patches := <[patch := p']> (w_patches w);
                       w_tape := w_tape w;
                       w_calls := w_calls w ++ [call_apply_delayed_shrink_size patch] |})
        end
    end.

(** [patch.shape] *)
Definition patch_shape (patch : nat) : M world tuple :=
  fun w =>
    match w_patches w !! patch with
    | None => Raise RuntimeError
    | Some p => Ok (shape p, w)
    end.

(** The body of the loop over [files], up to the volume it builds. *)
Definition load_volume (file : string) (patch_size : tuple)
  : result GroundTruthVolume.t :=
  bind (from_h5 file "volumes/raw") (fun image =>
  bind (from_h5 file "volumes/labels/neuron_ids") (fun label =>
  let image := true_divide (astype_float32 image) f32_255 in
  Ok {| GroundTruthVolume.image := image;
        GroundTruthVolume.label := label;
        GroundTruthVolume.patch_size := patch_size |})).

(** [for file in files: ...; volumes.append(ground_truth_volume)] *)
Fixpoint load_volumes (files : list string) (patch_size : tuple)
  (volumes : list nat) : M world (list nat) :=
  match files with
  | [] => ret volumes
  | file :: files' =>
      v <- lift (load_volume file patch_size);;
      r <- new_volume v;;
      load_volumes files' patch_size (volumes ++ [r])
  end.

(** [volumes[0]] *)
Definition first_volume (volumes : list nat) : result nat :=
  match volumes with
  | [] => Raise IndexError
  | v :: _ => Ok v
  end.

Definition __init__ (training_split_ratio : float64)
  (patch_size : patch_size_arg) : M world t :=
  lift (assert (gt training_split_ratio f64_0_5));;;
  lift (assert (lt training_split_ratio f64_1));;;
  let patch_size := broadcast patch_size in
  let transform := _prepare_transform in
  lift (assert (Transform.isinstance_Compose transform));;;
  let before := patch_size_before_transform patch_size (shrink_size transform) in
  volumes <- load_volumes files before [];;
  v0 <- lift (first_volume volumes);;
  ret {| transform := transform;
         patch_size := patch_size;
         training_volumes := drop 1 volumes;
         validation_volumes := [v0] |}.

(** The two [print] calls of [random_training_patch] write to standard
    output only and are left out. *)
Definition random_training_patch (self : t) : M world nat :=
  volume <- random_choice (training_volumes self);;
  patch <- volume_random_patch volume;;
  call (transform self) patch;;;
  patch_apply_delayed_shrink_size patch;;;
  shape <- patch_shape patch;;
  lift (assert (tuple_eqb (slice_last 3 shape) (patch_size self)));;;
  ret patch.

Definition random_validation_patch (self : t) : M world nat :=
  volume <- random_choice (validation_volumes self);;
  patch <- volume_random_patch volume;;
  call (transform self) patch;;;
  patch_apply_delayed_shrink_size patch;;;
  ret patch.

(** The world after three volumes have been added to the store. *)
Definition with_volumes (w : world) (vs : list GroundTruthVolume.t) : world :=
  {| w_volumes := w_volumes w ++ vs;
     w_patches := w_patches w;
     w_tape := w_tape w;
     w_calls := w_calls w |}.

(** The dataset that the constructor builds in a world that holds [n]
    volumes, and the patch size it hands to the volumes. *)
Definition built (patch_size : patch_size_arg) (n : nat) : t :=
  {| transform := _prepare_transform;
     patch_size := broadcast patch_size;
     training_volumes := [S n; S (S n)];
     validation_volumes := [n] |}.

Definition before_of (patch_size : patch_size_arg) : tuple :=
  patch_size_before_transform (broadcast patch_size)
    (shrink_size _prepare_transform).

(** The three stages that both sampling properties go through. *)
Definition stages (volumes : list nat) (transform : Transform.t) : M world nat :=
  (volume <- random_choice volumes;;
   patch <- volume_random_patch volume;;
   call transform patch;;;
   patch_apply_delayed_shrink_size patch;;;
   ret patch).

(** The world after a request that went through the three stages. *)
Definition after_stages (w : world) (volume : nat) (p : Patch) (tape : Tape)
  : world :=
  let patch := length (w_patches w) in
  {| w_volumes := w_volumes w;
     w_patches := w_patches w ++ [p];
     w_tape := tape;
     w_calls := w_calls w ++ [call_random_patch volume patch;
                              call_transform patch;
                              call_apply_delayed_shrink_size patch] |}.

(** A request that returned went through the three stages in order, on one
    patch object: [volume.random_patch] made patch [patch] with value [p1],
    the pipeline turned it into [p2], the crop into [p3], and nothing else
    was called or stored. *)
Definition three_stages (volumes : list nat) (transform : Transform.t)
  (w : world) (patch : nat) (w' : world) : Prop :=
  exists volume v p1 t1 p2 t2 p3,
    volume ∈ volumes /\
    w_volumes w !! volume = Some v /\
    random_patch v (snd (draw (w_tape w))) = Ok (p1, t1) /\
    transform_call transform p1 t1 = Ok (p2, t2) /\
    apply_delayed_shrink_size p2 = Ok p3 /\
    patch = length (w_patches w) /\
    w_patches w' = (w_patches w ++ [p3])%list /\
    w_calls w' = (w_calls w ++ [call_random_patch volume patch;
                                call_transform patch;
                                call_apply_delayed_shrink_size patch])%list.

(** A request made right after construction: the shape of the patch it
    returns, next to the configured patch size. *)
Definition sample_shape (sampler : t -> M world nat)
  (training_split_ratio : float64) (patch_size : patch_size_arg)
  : M world (tuple * tuple) :=
  self <- __init__ training_split_ratio patch_size;;
  patch <- sampler self;;
  shape <- patch_shape patch;;
  ret (shape, CremiDataset.patch_size self).

End WithCollaborators.

(** The split ratios that the two assertions of [__init__] let through. *)
Definition in_open_interval (training_split_ratio : float64) : Prop :=
  gt training_split_ratio f64_0_5 = true /\ lt training_split_ratio f64_1 = true.

(** A positive integer, or a 3-tuple of positive integers. *)
Definition positive_patch_size (patch_size : patch_size_arg) : Prop :=
  match patch_size with
  | PyInt p => 0 < p
  | PyTuple p => length p = 3%nat /\ Forall (fun x => 0 < x) p
  end.


(** Raw intensities within [0, 255], and stored values within [0, 1]. *)
Definition in_0_255 (z : Z) : Prop := 0 <= z <= 255.
Definition in_0_1 (x : float32) : Prop :=
  le (f32_of_Z 0) x = true /\ le x (f32_of_Z 1) = true.

End CremiDataset.

(** *** The collaborators as the spec describes them *)
Module SpecModel.
Import Py Float Array.
Local Open Scope string_scope.
Local Open Scope Z_scope.

(** Modelled from the spec: the [Patch] class is not among the sources. The
    spec gives a patch its arrays, of shape (batch=1, channel, z, y, x), and
    the delayed shrink still pending, low margins then high margins; the
    voxel values play no part in the shape accounting and are not kept. *)
Record Patch : Type := {
  shape : tuple;
  origin : tuple;
  delayed_shrink_size : tuple
}.

Definition zeros6 : tuple := [0; 0; 0; 0; 0; 0].

(** Elementwise sum of two shrink vectors. *)
Definition add_shrink (s1 s2 : tuple) : tuple := zip_with Z.add s1 s2.

(** Modelled from the spec: [Compose.shrink_size] of
    [neutorch/dataset/transform.py] is not among the sources. The spec makes
    it the elementwise sum of the members' shrink sizes, the zero vector for
    the empty list; [declared] is the shrink size a primitive declares. *)
Fixpoint shrink_size (declared : Transform.t -> tuple) (x : Transform.t) : tuple :=
  match x with
  | Transform.Compose transforms =>
      fold_right (fun m acc => add_shrink (shrink_size declared m) acc)
        zeros6 transforms
  | _ => declared x
  end.

(** The extent of axis [i] of the last three axes. *)
Definition spatial (s : tuple) (i : nat) : Z := nth i (slice_last 3 s) 0.

(** Modelled from the spec: a transform that meets a spatial axis smaller
    than its own shrink requirement fails with a ShapeError. *)
Definition fits (s : tuple) (p : Patch) : bool :=
  forallb (fun i => nth i s 0 + nth (i + 3) s 0 <=? spatial (shape p) i)
    [0; 1; 2]%nat.

(** Modelled from the spec: one member of the pipeline applied to a patch.
    It draws its own randomness, leaves the outer shape alone and records
    its declared margin in the pending shrink, whether or not it fired. *)
Definition apply_member (declared : Transform.t -> tuple) (m : Transform.t)
  (p : Patch) (tape : Tape) : result (Patch * Tape) :=
  let s := shrink_size declared m in
  if fits s p then
    Ok ({| shape := shape p;
           origin := origin p;
           delayed_shrink_size := add_shrink (delayed_shrink_size p) s |},
        snd (draw tape))
  else Raise ShapeError.

(** Modelled from the spec: [Compose.__call__] runs the members in their
    declared order on the same patch; Compose itself does not crop. *)
Fixpoint apply_members (declared : Transform.t -> tuple)
  (ms : list Transform.t) (p : Patch) (tape : Tape) : result (Patch * Tape) :=
  match ms with
  | [] => Ok (p, tape)
  | m :: ms' =>
      match apply_member declared m p tape with
      | Ok (p', tape') => apply_members declared ms' p' tape'
      | Raise e => Raise e
      end
  end.

Definition transform_call (declared : Transform.t -> tuple) (x : Transform.t)
  (p : Patch) (tape : Tape) : result (Patch * Tape) :=
  match x with
  | Transform.Compose transforms => apply_members declared transforms p tape
  | _ => apply_member declared x p tape
  end.

(** Modelled from the spec: [Patch.apply_delayed_shrink_size] crops every
    spatial axis by its pending low and high margins and leaves no shrink
    pending. *)
Definition apply_delayed_shrink_size (p : Patch) : result Patch :=
  let s := delayed_shrink_size p in
  let lead := take (length (shape p) - 3) (shape p) in
  let crop i := Z.max 0 (spatial (shape p) i - nth i s 0 - nth (i + 3) s 0) in
  Ok {| shape := (lead ++ map crop [0; 1; 2]%nat)%list;
        origin := zip_with Z.add (origin p) (slice_to 3 s);
        delayed_shrink_size := zeros6 |}.

(** Draws [n] numbers. *)
Fixpoint draws (n : nat) (tape : Tape) : list nat * Tape :=
  match n with
  | O => ([], tape)
  | S n' => let (d, tape') := draw tape in
            let (ds, tape'') := draws n' tape' in
            (d :: ds, tape'')
  end.

(** Modelled from the spec: [GroundTruthVolume.random_patch] returns a patch
    of exactly the configured size at a random offset that keeps it inside
    the volume, and fails with a SizeError when the size exceeds the extent
    of the volume on some axis. *)
Definition random_patch (v : GroundTruthVolume.t) (tape : Tape)
  : result (Patch * Tape) :=
  let size := GroundTruthVolume.patch_size v in
  let extent := slice_last 3 (Array.shape (GroundTruthVolume.image v)) in
  if (length size =? 3)%nat && (length extent =? 3)%nat
     && forallb (fun i => nth i size 0 <=? nth i extent 0) [0; 1; 2]%nat
  then
    let (ds, tape') := draws 3 tape in
    let offset i :=
      Z.of_nat (nth i ds O) mod (nth i extent 0 - nth i size 0 + 1) in
    Ok ({| shape := ([1; 1] ++ size)%list;
           origin := map offset [0; 1; 2]%nat;
           delayed_shrink_size := zeros6 |},
        tape')
  else Raise SizeError.

(** The collaborators of the spec, over the shrink sizes that the primitives
    declare and the content of the disk. *)
Definition collaborators (declared : Transform.t -> tuple)
  (disk : string -> string -> result (Chunk Z)) : CremiDataset.Collaborators :=
  {| CremiDataset.Patch := Patch;
     CremiDataset.shape := shape;
     CremiDataset.shrink_size := shrink_size declared;
     CremiDataset.transform_call := transform_call declared;
     CremiDataset.random_patch := random_patch;
     CremiDataset.apply_delayed_shrink_size := apply_delayed_shrink_size;
     CremiDataset.from_h5 := disk |}.

(** A scenario: three volumes of extent (7, 7, 7) on disk, and a pipeline
    whose total shrink is (2, 2, 2, 2, 2, 2). *)
Definition declared (x : Transform.t) : tuple :=
  match x with
  | Transform.Perspective2D => [0; 2; 2; 0; 2; 2]
  | Transform.MissAlignment => [2; 0; 0; 2; 0; 0]
  | _ => zeros6
  end.

Definition voxels : list Z := map Z.of_nat (seq 0 343).

Definition raw_volume (seed : Z) : Chunk Z :=
  {| Array.shape := [7; 7; 7];
     Array.data := map (fun i => (seed + 37 * i) mod 256) voxels |}.

Definition label_volume (seed : Z) : Chunk Z :=
  {| Array.shape := [7; 7; 7];
     Array.data := map (fun i => (seed + i) / 49) voxels |}.

Definition disk (file path : string) : result (Chunk Z) :=
  let seed :=
    if String.eqb file CremiDataset.fileA then Some 1
    else if String.eqb file CremiDataset.fileB then Some 2
    else if String.eqb file CremiDataset.fileC then Some 3
    else None in
  match seed with
  | None => Raise AssertionError
  | Some k =>
      if String.eqb path "volumes/raw" then Ok (raw_volume k)
      else if String.eqb path "volumes/labels/neuron_ids" then Ok (label_volume k)
      else Raise KeyError
  end.

Definition scenario : CremiDataset.Collaborators := collaborators declared disk.

(** A world with no object yet and a given tape. *)
Definition fresh (tape : Tape) : CremiDataset.World Patch :=
  {| CremiDataset.w_volumes := [];
     CremiDataset.w_patches := [];
     CremiDataset.w_tape := tape;
     CremiDataset.w_calls := [] |}.

(** The volume that [__init__] builds from a file of the scenario, and the
    world once the three of them are in the store. *)
Definition volume (seed : Z) (patch_size : tuple) : GroundTruthVolume.t :=
  {| GroundTruthVolume.image :=
       true_divide (astype_float32 (raw_volume seed)) f32_255;
     GroundTruthVolume.label := label_volume seed;
     GroundTruthVolume.patch_size := patch_size |}.

Definition loaded (tape : Tape) (patch_size : tuple) : CremiDataset.World Patch :=
  CremiDataset.with_volumes (C:=scenario) (fresh tape)
    [volume 1 patch_size; volume 2 patch_size; volume 3 patch_size].

(** The patch of shape (1, 1, 2, 2, 2) that a request leaves in the store. *)
Definition cropped (origin : tuple) : Patch :=
  {| shape := [1; 1; 2; 2; 2];
     origin := origin;
     delayed_shrink_size := zeros6 |}.

(** The same scenario on a disk where the third file is missing:
    [Chunk.from_h5] asserts that the file exists. *)
Definition disk_without_C (file path : string) : result (Chunk Z) :=
  if String.eqb file CremiDataset.fileC then Raise AssertionError
  else disk file path.

Definition scenario_without_C : CremiDataset.Collaborators :=
  collaborators declared disk_without_C.

(** 0.9, the default [training_split_ratio], and 0.6. *)
Definition f64_0_9 : float64 :=
  SFdiv prec64 emax64 (f64_of_Z 9) (f64_of_Z 10).
Definition f64_0_6 : float64 :=
  SFdiv prec64 emax64 (f64_of_Z 6) (f64_of_Z 10).

End SpecModel.

(* ===================================================================== *)
(** ** neutorch/model/ViT.py, on tensor shapes *)
(* ===================================================================== *)

(** *** The [torch] and [einops] operations that [ViT.py] calls

    A tensor is read as its [torch.Size]; every operation is the rule that
    gives the size of its result, or the exception it raises when the sizes
    do not fit. Dropout probabilities, weights and the values of tensors do
    not act on sizes and are not kept. *)
Module Torch.
Import Py.
Local Open Scope N_scope.

Definition Size := list N.

(** A size without its last dimension, and that dimension. *)
Fixpoint split_last (x : Size) : option (Size * N) :=
  match x with
  | [] => None
  | [d] => Some ([], d)
  | a :: x' =>
      match split_last x' with
      | Some (lead, d) => Some (a :: lead, d)
      | None => None
      end
  end.

(** An integer as an [np.int64] holds it: arithmetic wraps around. *)
Definition int64 (z : Z) : Z := (z + 2 ^ 63) mod 2 ^ 64 - 2 ^ 63.

(** [np.product(patch_size)]: the product of the entries as an [np.int64];
    wrapping once is wrapping after every factor. Entries are taken below
    [2 ^ 63], where numpy picks that type. *)
Definition product (x : list N) : Z :=
  int64 (Z.of_N (fold_right N.mul 1%N x)).

(** [np.product(patch_size) * channels]: an [np.int64] again. *)
Definition times (p : Z) (channels : N) : Z := int64 (p * Z.of_N channels).

(** Two dimensions that broadcast together, and the dimension they give. *)
Definition broadcast_dim (a b : N) : option N :=
  if a =? b then Some a
  else if a =? 1 then Some b
  else if b =? 1 then Some a
  else None.

(** Broadcasting of two sizes written last dimension first. *)
Fixpoint broadcast_rev (x y : Size) : result Size :=
  match x, y with
  | [], _ => Ok y
  | _, [] => Ok x
  | a :: x', b :: y' =>
      match broadcast_dim a b with
      | Some c => bind (broadcast_rev x' y') (fun r => Ok (c :: r))
      | None => Raise RuntimeError
      end
  end.

(** [x + y] *)
Definition add (x y : Size) : result Size :=
  bind (broadcast_rev (rev x) (rev y)) (fun r => Ok (rev r)).

(** [nn.Linear(in_features, out_features)(x)] *)
Definition linear (in_features out_features : N) (x : Size) : result Size :=
  match split_last x with
  | Some (lead, d) =>
      if d =? in_features then Ok (lead ++ [out_features])%list
      else Raise RuntimeError
  | None => Raise RuntimeError
  end.

(** [nn.LayerNorm(dim)(x)] *)
Definition layer_norm (dim : N) (x : Size) : result Size :=
  match split_last x with
  | Some (_, d) => if d =? dim then Ok x else Raise RuntimeError
  | None => Raise RuntimeError
  end.

(** [nn.Softmax(dim=-1)(x)] *)
Definition softmax (x : Size) : result Size := Ok x.

(** [x.chunk(chunks, dim=-1)]: pieces of [ceil(len / chunks)] along the last
    dimension, the last piece taking what is left; [chunks] empty pieces
    when the dimension is empty. *)
Definition chunk (chunks : N) (x : Size) : result (list Size) :=
  match split_last x with
  | None => Raise IndexError
  | Some (lead, len) =>
      let split_size := (len + chunks - 1) / chunks in
      if split_size =? 0 then
        Ok (repeat (lead ++ [0])%list (N.to_nat chunks))
      else
        let pieces := (len + split_size - 1) / split_size in
        let rest := len - split_size * (pieces - 1) in
        Ok (repeat (lead ++ [split_size])%list (N.to_nat (pieces - 1))
              ++ [(lead ++ [rest])%list])%list
  end.

(** The four [einops] patterns of the file. *)
Inductive pattern : Type :=
(** ['b n pci pz py px -> b n (pci pz py px)'] *)
| flatten_patch
(** ['b n (pco pz py px) -> b n pco pz py px'], the four lengths given *)
| unflatten_patch (pco pz py px : N)
(** ['b n (h d) -> b h n d'], [h] given *)
| split_heads (h : N)
(** ['b h n d -> b n (h d)'] *)
| merge_heads.

(** [rearrange(x, pattern, ...)] and [Rearrange(pattern, ...)(x)]. The two
    patch patterns are those of the [Rearrange] layers, the two head
    patterns those of the calls of [rearrange], which wraps what goes wrong
    in an [EinopsError]; the division by a given [h = 0] is not wrapped. *)
Definition rearrange (p : pattern) (x : Size) : result Size :=
  match p, x with
  | flatten_patch, [b; n; pci; pz; py; px] => Ok [b; n; pci * pz * py * px]
  | flatten_patch, _ => Raise AxesError
  | unflatten_patch pco pz py px, [b; n; len] =>
      if len =? pco * pz * py * px then Ok [b; n; pco; pz; py; px]
      else Raise EinopsError
  | unflatten_patch _ _ _ _, _ => Raise AxesError
  | split_heads h, [b; n; len] =>
      if h =? 0 then Raise ZeroDivisionError
      else if len mod h =? 0 then Ok [b; h; n; len / h]
      else Raise EinopsError
  | split_heads _, _ => Raise EinopsError
  | merge_heads, [b; h; n; d] => Ok [b; n; h * d]
  | merge_heads, _ => Raise EinopsError
  end.

(** [einsum('b h i d, b h j d -> b h i j', q, k)] *)
Definition einsum_bhid_bhjd (q k : Size) : result Size :=
  match q, k with
  | [b; h; i; d], [b'; h'; j; d'] =>
      match broadcast_dim b b', broadcast_dim h h', broadcast_dim d d' with
      | Some b0, Some h0, Some _ => Ok [b0; h0; i; j]
      | _, _, _ => Raise RuntimeError
      end
  | _, _ => Raise RuntimeError
  end.

(** [einsum('b h i j, b h j d -> b h i d', attn, v)] *)
Definition einsum_bhij_bhjd (attn v : Size) : result Size :=
  match attn, v with
  | [b; h; i; j], [b'; h'; j'; d] =>
      match broadcast_dim b b', broadcast_dim h h', broadcast_dim j j' with
      | Some b0, Some h0, Some _ => Ok [b0; h0; i; d]
      | _, _, _ => Raise RuntimeError
      end
  | _, _ => Raise RuntimeError
  end.

(** The layers that the file puts in [nn.Sequential] or keeps as fields. *)
#[warnings="-register-all"]
Inductive Module_ : Type :=
| Linear (in_features out_features : N)
| LayerNorm (dim : N)
| GELU
| Dropout
| Softmax
| Identity
| Rearrange (p : pattern)
| Sequential (layers : list Module_).

(** [nn.Linear(in_features, out_features)] for sizes that numpy computed:
    a negative size is refused when the weight is allocated. *)
Definition new_linear (in_features out_features : Z) : result Module_ :=
  if ((in_features <? 0) || (out_features <? 0))%Z then Raise RuntimeError
  else Ok (Linear (Z.to_N in_features) (Z.to_N out_features)).

(** [m(x)] *)
Fixpoint forward (m : Module_) (x : Size) : result Size :=
  match m with
  | Linear i o => linear i o x
  | LayerNorm dim => layer_norm dim x
  | GELU => Ok x
  | Dropout => Ok x
  | Softmax => softmax x
  | Identity => Ok x
  | Rearrange p => rearrange p x
  | Sequential layers =>
      (fix run (ls : list Module_) (x : Size) : result Size :=
         match ls with
         | [] => Ok x
         | l :: ls' => bind (forward l x) (run ls')
         end) layers x
  end.

End Torch.

Module FeedForward.
Import Py Torch.

Record t : Type := { net : Module_ }.

Definition __init__ (dim hidden_dim : N) : t :=
  {| net := Sequential [
       Linear dim hidden_dim;
       GELU;
       Dropout;
       Linear hidden_dim dim;
       Dropout
     ] |}.

Definition forward (self : t) (x : Size) : result Size :=
  Torch.forward (net self) x.

End FeedForward.

Module Attention.
Import Py Torch.
Local Open Scope N_scope.

(** [scale] is a float that multiplies the scores: it is kept out, and
    only the exception of [dim_head ** -0.5] at [dim_head = 0] remains. *)
Record t : Type := {
  heads : N;
  attend : Module_;
  to_qkv : Module_;
  to_out : Module_
}.

Definition __init__ (dim heads dim_head : N) : result t :=
  let inner_dim := dim_head * heads in
  let project_out := negb ((heads =? 1) && (dim_head =? dim)) in
  if dim_head =? 0 then Raise ZeroDivisionError
  else
    Ok {| heads := heads;
          attend := Softmax;
          to_qkv := Linear dim (inner_dim * 3);
          to_out := if project_out
                    then Sequential [Linear inner_dim dim; Dropout]
                    else Identity |}.

Definition forward (self : t) (x : Size) : result Size :=
  match x with
  | [b; n; _] =>
      let h := heads self in
      bind (Torch.forward (to_qkv self) x) (fun y =>
      bind (chunk 3 y) (fun qkv =>
      match map (rearrange (split_heads h)) qkv with
      | [q; k; v] =>
          bind q (fun q => bind k (fun k => bind v (fun v =>
          bind (einsum_bhid_bhjd q k) (fun dots =>
          bind (Torch.forward (attend self) dots) (fun attn =>
          bind (einsum_bhij_bhjd attn v) (fun out =>
          bind (rearrange merge_heads out) (fun out =>
          Torch.forward (to_out self) out)))))))
      | _ => Raise ValueError
      end))
  | _ => Raise ValueError
  end.

End Attention.

Module PreNorm.
Import Py Torch.

(** The two kinds of [fn] that [Transformer] wraps. *)
Inductive fn_t : Type :=
| attention (a : Attention.t)
| feed_forward (f : FeedForward.t).

Record t : Type := { norm : Module_; fn : fn_t }.

Definition __init__ (dim : N) (fn : fn_t) : t :=
  {| norm := LayerNorm dim; fn := fn |}.

Definition forward (self : t) (x : Size) : result Size :=
  bind (Torch.forward (norm self) x) (fun y =>
  match fn self with
  | attention a => Attention.forward a y
  | feed_forward f => FeedForward.forward f y
  end).

End PreNorm.

Module Transformer.
Import Py Torch.

Record t : Type := { layers : list (PreNorm.t * PreNorm.t) }.

(** [for _ in range(depth): self.layers.append(...)] *)
Fixpoint build (dim : N) (depth : nat) (heads dim_head mlp_dim : N)
  (layers : list (PreNorm.t * PreNorm.t))
  : result (list (PreNorm.t * PreNorm.t)) :=
  match depth with
  | O => Ok layers
  | S depth' =>
      bind (Attention.__init__ dim heads dim_head) (fun a =>
      let attn := PreNorm.__init__ dim (PreNorm.attention a) in
      let ff := PreNorm.__init__ dim
                  (PreNorm.feed_forward (FeedForward.__init__ dim mlp_dim)) in
      build dim depth' heads dim_head mlp_dim (layers ++ [(attn, ff)]))
  end.

Definition __init__ (dim : N) (depth : nat) (heads dim_head mlp_dim : N)
  : result t :=
  bind (build dim depth heads dim_head mlp_dim [])
       (fun layers => Ok {| layers := layers |}).

(** [for attn, ff in self.layers: x = attn(x) + x; x = ff(x) + x] *)
Fixpoint run (layers : list (PreNorm.t * PreNorm.t)) (x : Size) : result Size :=
  match layers with
  | [] => Ok x
  | (attn, ff) :: layers' =>
      bind (PreNorm.forward attn x) (fun a =>
      bind (add a x) (fun x =>
      bind (PreNorm.forward ff x) (fun f =>
      bind (add f x) (fun x =>
      run layers' x))))
  end.

Definition forward (self : t) (x : Size) : result Size :=
  run (layers self) x.

End Transformer.

Module ViT.
Import Py Torch.
Local Open Scope N_scope.

(** The keyword arguments of [ViT.__init__]; the two dropout probabilities
    are left out. *)
Record kwargs : Type := {
  patch_size : list N;
  in_channels : N;
  out_channels : N;
  patch_emb_dim : N;
  depth : nat;
  heads : N;
  mlp_dim : N;
  pos_embedding : string;
  channels : N;
  dim_head : N
}.

Record t : Type := {
  embed_patch : Module_;
  self_pos_embedding : option Module_;
  dropout : Module_;
  transformer : Transformer.t;
  unembed_patch : Module_
}.

(** [{'none', 'global', 'sin', 'CPE', 'learned'}] *)
Definition pos_embedding_types : list string :=
  ["none"; "global"; "sin"; "CPE"; "learned"]%string.

(** [x in s] on strings. *)
Definition str_in (x : string) (s : list string) : bool :=
  existsb (String.eqb x) s.

Definition __init__ (kw : kwargs) : result t :=
  bind (assert (str_in (pos_embedding kw) pos_embedding_types)) (fun _ =>
  match patch_size kw with
  | [pz; py; px] =>
      let patch_dim_in := times (product (patch_size kw)) (in_channels kw) in
      bind (new_linear patch_dim_in (Z.of_N (patch_emb_dim kw))) (fun embed =>
      let embed_patch := Sequential [
        Rearrange flatten_patch;
        embed
      ] in
      let pos := @None Module_ in
      let pos := if String.eqb (pos_embedding kw) EmptyString then pos else pos in
      bind (Transformer.__init__ (patch_emb_dim kw) (depth kw) (heads kw)
              (dim_head kw) (mlp_dim kw)) (fun transformer =>
      let patch_dim_out := times (product (patch_size kw)) (out_channels kw) in
      let pco := out_channels kw in
      bind (new_linear (Z.of_N (patch_emb_dim kw)) patch_dim_out) (fun unembed =>
      Ok {| embed_patch := embed_patch;
            self_pos_embedding := pos;
            dropout := Dropout;
            transformer := transformer;
            unembed_patch := Sequential [
              unembed;
              Rearrange (unflatten_patch pco pz py px)
            ] |})))
  | _ => Raise ValueError
  end).

(** The keyword arguments with another [pos_embedding]. *)
Definition with_pos_embedding (kw : kwargs) (pos_embedding : string) : kwargs :=
  {| patch_size := patch_size kw;
     in_channels := in_channels kw;
     out_channels := out_channels kw;
     patch_emb_dim := patch_emb_dim kw;
     depth := depth kw;
     heads := heads kw;
     mlp_dim := mlp_dim kw;
     pos_embedding := pos_embedding;
     channels := channels kw;
     dim_head := dim_head kw |}.

(** The keyword arguments with another [channels]. *)
Definition with_channels (kw : kwargs) (channels : N) : kwargs :=
  {| patch_size := patch_size kw;
     in_channels := in_channels kw;
     out_channels := out_channels kw;
     patch_emb_dim := patch_emb_dim kw;
     depth := depth kw;
     heads := heads kw;
     mlp_dim := mlp_dim kw;
     pos_embedding := pos_embedding kw;
     channels := channels;
     dim_head := dim_head kw |}.

(** [forward] without the step that adds a positional embedding. *)
Definition forward_without_pos_embedding (self : t) (img : Size) : result Size :=
  bind (Torch.forward (embed_patch self) img) (fun x =>
  bind (Torch.forward (dropout self) x) (fun x =>
  bind (Transformer.forward (transformer self) x) (fun x =>
  Torch.forward (unembed_patch self) x))).

(** A small network: patches of (2, 3, 4) voxels, one channel in, three
    out, two layers of two heads. *)
Definition small : kwargs :=
  {| patch_size := [2; 3; 4];
     in_channels := 1;
     out_channels := 3;
     patch_emb_dim := 16;
     depth := 2;
     heads := 2;
     mlp_dim := 32;
     pos_embedding := "none";
     channels := 3;
     dim_head := 64 |}.

(** The small network with one layer and no head. *)
Definition headless : kwargs :=
  {| patch_size := [2; 3; 4];
     in_channels := 1;
     out_channels := 3;
     patch_emb_dim := 16;
     depth := 1;
     heads := 0;
     mlp_dim := 32;
     pos_embedding := "none";
     channels := 3;
     dim_head := 64 |}.

(** The number of voxels of a patch and its products with the two numbers
    of channels are below [2 ^ 63]: nothing wraps in [__init__]. *)
Definition no_overflow (kw : kwargs) : Prop :=
  let voxels := fold_right N.mul 1 (patch_size kw) in
  voxels < 2 ^ 63 /\
  voxels * in_channels kw < 2 ^ 63 /\
  voxels * out_channels kw < 2 ^ 63.

(** The two [print] calls write to standard output only and are left out. *)
Definition forward (self : t) (img : Size) : result Size :=
  bind (Torch.forward (embed_patch self) img) (fun x =>
  bind (match self_pos_embedding self with
        | Some pos => bind (Torch.forward pos x) (fun e => add x e)
        | None => Ok x
        end) (fun x =>
  bind (Torch.forward (dropout self) x) (fun x =>
  bind (Transformer.forward (transformer self) x) (fun x =>
  Torch.forward (unembed_patch self) x)))).

End ViT.

(* ===================================================================== *)
(** ** Properties of [CremiDataset] *)
(* ===================================================================== *)

Section PyFacts.
Import Py.

Lemma tuple_eqb_eq (s t : tuple) : tuple_eqb s t = true <-> s = t.
Proof.
  revert t; induction s as [|a s IH]; intros [|b t]; simpl; split;
    try congruence; try discriminate.
  - intros H. apply andb_true_iff in H as [Hab Hst].
    apply Z.eqb_eq in Hab. apply IH in Hst. congruence.
  - intros H. injection H as -> ->. apply andb_true_iff. split.
    + apply Z.eqb_refl.
    + now apply IH.
Qed.

Lemma is_ok_returns {A} (r : result A) : is_ok r = true <-> returns r.
Proof.
  destruct r as [a|e]; simpl; split; intros H; try discriminate; eauto.
  - now exists a.
  - destruct H as [a H]. discriminate.
Qed.

Lemma assert_ok (b : bool) (u : unit) : assert b = Ok u -> b = true.
Proof. destruct b; simpl; [reflexivity | discriminate]. Qed.

End PyFacts.

Section CremiDatasetFacts.
Import Py Float Array CremiDataset.
Context {C : Collaborators}.
Local Open Scope Z_scope.

(** The oversized patch size of a 3-tuple under a 6-tuple of shrink sizes. *)
Lemma patch_size_before_transform_6 (p0 p1 p2 : Z) (shrink : tuple) :
  length shrink = 6%nat ->
  patch_size_before_transform [p0; p1; p2] shrink =
    [p0 + nth 0 shrink 0 + nth 3 shrink 0;
     p1 + nth 1 shrink 0 + nth 4 shrink 0;
     p2 + nth 2 shrink 0 + nth 5 shrink 0].
Proof.
  intros Hlen.
  destruct shrink as [|s0 [|s1 [|s2 [|s3 [|s4 [|s5 [|s6 rest]]]]]]];
    try discriminate Hlen.
  reflexivity.
Qed.

(** What the loop over the three files does when it returns. *)
Lemma load_volumes_files (before : tuple) (w : World Patch) vs w' :
  load_volumes files before [] w = Ok (vs, w') ->
  exists vA vB vC,
    load_volume fileA before = Ok vA /\
    load_volume fileB before = Ok vB /\
    load_volume fileC before = Ok vC /\
    let n := length (w_volumes w) in
    vs = [n; S n; S (S n)] /\
    w' = with_volumes w [vA; vB; vC].
Proof.
  unfold files. cbn [load_volumes]. unfold mbind, lift, new_volume, ret.
  destruct (load_volume fileA before) as [vA|] eqn:EA; [|discriminate].
  cbn [w_volumes w_patches w_tape w_calls].
  destruct (load_volume fileB before) as [vB|] eqn:EB; [|discriminate].
  cbn [w_volumes w_patches w_tape w_calls].
  destruct (load_volume fileC before) as [vC|] eqn:EC; [|discriminate].
  cbn [w_volumes w_patches w_tape w_calls].
  intros H. injection H as <- <-.
  exists vA, vB, vC. repeat split.
  - cbn [app]. rewrite !length_app. cbn [length].
    repeat f_equal; lia.
  - unfold with_volumes. f_equal. rewrite <- !app_assoc. reflexivity.
Qed.

(** Conversely, the loop returns as soon as the three volumes load. *)
Lemma load_volumes_returns (before : tuple) (w : World Patch) vA vB vC :
  load_volume fileA before = Ok vA ->
  load_volume fileB before = Ok vB ->
  load_volume fileC before = Ok vC ->
  let n := length (w_volumes w) in
  load_volumes files before [] w =
    Ok ([n; S n; S (S n)], with_volumes w [vA; vB; vC]).
Proof.
  intros EA EB EC n.
  destruct (load_volumes files before [] w) as [[vs w']|e] eqn:E.
  - apply load_volumes_files in E as (vA' & vB' & vC' & EA' & EB' & EC' & Hvs & Hw).
    rewrite EA in EA'. rewrite EB in EB'. rewrite EC in EC'.
    injection EA' as <-. injection EB' as <-. injection EC' as <-.
    subst vs w'. reflexivity.
  - exfalso. revert E. unfold files. cbn [load_volumes].
    unfold mbind, lift, new_volume, ret.
    rewrite EA. cbn [w_volumes w_patches w_tape w_calls].
    rewrite EB. cbn [w_volumes w_patches w_tape w_calls].
    rewrite EC. discriminate.
Qed.

(** Inversion of a construction that returned. *)
Lemma init_inv ratio ps (w : World Patch) ds w' :
  __init__ ratio ps w = Ok (ds, w') ->
  in_open_interval ratio /\
  exists vA vB vC,
    load_volume fileA (before_of ps) = Ok vA /\
    load_volume fileB (before_of ps) = Ok vB /\
    load_volume fileC (before_of ps) = Ok vC /\
    ds = built ps (length (w_volumes w)) /\
    w' = with_volumes w [vA; vB; vC].
Proof.
  unfold __init__, in_open_interval.
  unfold mbind at 1, lift at 1.
  destruct (gt ratio f64_0_5); [|discriminate]. cbn [assert].
  unfold mbind at 1, lift at 1.
  destruct (lt ratio f64_1); [|discriminate]. cbn [assert].
  unfold mbind at 1, lift at 1. cbn [Transform.isinstance_Compose _prepare_transform assert].
  unfold mbind at 1.
  fold (before_of ps).
  destruct (load_volumes files (before_of ps) [] w) as [[vs w1]|e] eqn:E;
    [|discriminate].
  apply load_volumes_files in E as (vA & vB & vC & EA & EB & EC & Hvs & Hw).
  subst vs w1.
  unfold mbind, lift, first_volume, ret. cbn [drop].
  intros H. injection H as <- <-.
  split; [split; reflexivity|].
  exists vA, vB, vC. repeat split; assumption.
Qed.

(** Construction returns when the ratio passes and the volumes load. *)
Lemma init_returns ratio ps (w : World Patch) vA vB vC :
  in_open_interval ratio ->
  load_volume fileA (before_of ps) = Ok vA ->
  load_volume fileB (before_of ps) = Ok vB ->
  load_volume fileC (before_of ps) = Ok vC ->
  __init__ ratio ps w =
    Ok (built ps (length (w_volumes w)), with_volumes w [vA; vB; vC]).
Proof.
  intros [Hgt Hlt] EA EB EC.
  unfold __init__.
  unfold mbind at 1, lift at 1. rewrite Hgt. cbn [assert].
  unfold mbind at 1, lift at 1. rewrite Hlt. cbn [assert].
  unfold mbind at 1, lift at 1. cbn [Transform.isinstance_Compose _prepare_transform assert].
  unfold mbind at 1. fold (before_of ps).
  rewrite (load_volumes_returns _ _ _ _ _ EA EB EC).
  reflexivity.
Qed.

(** Construction raises an AssertionError when the ratio does not pass. *)
Lemma init_rejects ratio ps (w : World Patch) :
  ~ in_open_interval ratio -> __init__ ratio ps w = Raise AssertionError.
Proof.
  unfold in_open_interval, __init__. intros H.
  unfold mbind at 1, lift at 1.
  destruct (gt ratio f64_0_5); [|reflexivity]. cbn [assert].
  unfold mbind at 1, lift at 1.
  destruct (lt ratio f64_1); [|reflexivity].
  exfalso. apply H. split; reflexivity.
Qed.

End CremiDatasetFacts.

Section SamplingFacts.
Import Py Float Array CremiDataset.
Context {C : Collaborators}.

Lemma lookup_snoc {A} (l : list A) (x : A) : (l ++ [x]) !! length l = Some x.
Proof. induction l as [|a l IH]; simpl; auto. Qed.

Lemma insert_snoc {A} (l : list A) (x y : A) :
  <[length l := y]> (l ++ [x]) = l ++ [y].
Proof. induction l as [|a l IH]; simpl; [reflexivity | now rewrite IH]. Qed.

Lemma random_choice_inv {A} (seq : list A) (w : World Patch) x w' :
  random_choice seq w = Ok (x, w') ->
  x ∈ seq /\
  w' = {| w_volumes := w_volumes w;
          w_patches := w_patches w;
          w_tape := snd (draw (w_tape w));
          w_calls := w_calls w |}.
Proof.
  unfold random_choice.
  destruct (draw (w_tape w)) as [d tape] eqn:Ed.
  destruct (seq !! (d mod length seq)%nat) as [y|] eqn:El; [|discriminate].
  intros H. injection H as <- <-. split.
  - apply list_elem_of_lookup. eauto.
  - reflexivity.
Qed.

Lemma stages_inv volumes transform (w : World Patch) patch w' :
  stages volumes transform w = Ok (patch, w') ->
  exists volume v p1 t1 p2 t2 p3,
    volume ∈ volumes /\
    w_volumes w !! volume = Some v /\
    random_patch v (snd (draw (w_tape w))) = Ok (p1, t1) /\
    transform_call transform p1 t1 = Ok (p2, t2) /\
    apply_delayed_shrink_size p2 = Ok p3 /\
    patch = length (w_patches w) /\
    w' = after_stages w volume p3 t2.
Proof.
  unfold stages. unfold mbind at 1.
  destruct (random_choice volumes w) as [[volume w0]|] eqn:E0; [|discriminate].
  apply random_choice_inv in E0 as [Hin ->].
  unfold mbind at 1. unfold volume_random_patch.
  cbn [w_volumes w_patches w_tape w_calls].
  destruct (w_volumes w !! volume) as [v|] eqn:Ev; [|discriminate].
  destruct (random_patch v (snd (draw (w_tape w)))) as [[p1 t1]|] eqn:E1;
    [|discriminate].
  unfold mbind at 1. unfold call.
  cbn [w_volumes w_patches w_tape w_calls].
  rewrite lookup_snoc.
  destruct (transform_call transform p1 t1) as [[p2 t2]|] eqn:E2; [|discriminate].
  unfold mbind at 1. unfold patch_apply_delayed_shrink_size.
  cbn [w_volumes w_patches w_tape w_calls].
  rewrite insert_snoc, lookup_snoc.
  destruct (apply_delayed_shrink_size p2) as [p3|] eqn:E3; [|discriminate].
  cbn [w_volumes w_patches w_tape w_calls].
  rewrite insert_snoc. unfold ret.
  intros H. injection H as <- <-.
  exists volume, v, p1, t1, p2, t2, p3.
  repeat split; try assumption.
  unfold after_stages. f_equal. rewrite <- !app_assoc. reflexivity.
Qed.

Lemma random_validation_patch_stages (self : CremiDataset.t) :
  random_validation_patch self = stages (validation_volumes self) (transform self).
Proof. reflexivity. Qed.

Lemma random_training_patch_inv (self : CremiDataset.t) (w : World Patch) patch w' :
  random_training_patch self w = Ok (patch, w') ->
  stages (training_volumes self) (transform self) w = Ok (patch, w') /\
  exists p, w_patches w' !! patch = Some p /\
            slice_last 3 (shape p) = CremiDataset.patch_size self.
Proof.
  unfold random_training_patch, stages, mbind, lift, ret.
  destruct (random_choice (training_volumes self) w) as [[volume w0]|]; [|discriminate].
  destruct (volume_random_patch volume w0) as [[patch0 w1]|]; [|discriminate].
  destruct (call (transform self) patch0 w1) as [[[] w2]|]; [|discriminate].
  destruct (patch_apply_delayed_shrink_size patch0 w2) as [[[] w3]|]; [|discriminate].
  unfold patch_shape.
  destruct (w_patches w3 !! patch0) as [p|] eqn:Ep; [|discriminate].
  destruct (assert (tuple_eqb (slice_last 3 (shape p)) (CremiDataset.patch_size self)))
    as [u|] eqn:Ea; [|discriminate].
  intros H. injection H as <- <-.
  split; [reflexivity|].
  exists p. split; [assumption|].
  apply assert_ok in Ea. now apply tuple_eqb_eq.
Qed.

End SamplingFacts.

Section CremiDatasetClaims.
Import Py Float Array CremiDataset.
Context {C : Collaborators}.
Local Open Scope Z_scope.

Lemma load_volume_inv file before v :
  load_volume file before = Ok v ->
  exists raw label,
    from_h5 file "volumes/raw" = Ok raw /\
    from_h5 file "volumes/labels/neuron_ids" = Ok label /\
    v = {| GroundTruthVolume.image := true_divide (astype_float32 raw) f32_255;
           GroundTruthVolume.label := label;
           GroundTruthVolume.patch_size := before |}.
Proof.
  unfold load_volume, bind.
  destruct (from_h5 file "volumes/raw") as [raw|]; [|discriminate].
  destruct (from_h5 file "volumes/labels/neuron_ids") as [label|]; [|discriminate].
  intros H. injection H as <-. now exists raw, label.
Qed.

Lemma load_volume_returns file before :
  returns (from_h5 file "volumes/raw") ->
  returns (from_h5 file "volumes/labels/neuron_ids") ->
  returns (load_volume file before).
Proof.
  intros [raw Hraw] [label Hlabel]. unfold load_volume, bind.
  rewrite Hraw, Hlabel. eexists. reflexivity.
Qed.

(** C1: for a 3-tuple [patch_size] and a pipeline whose shrink size is a
    6-tuple, construction hands to each of the volumes it builds the size
    [patch_size[i] + shrink_size[i] + shrink_size[i+3]] on every axis [i]. *)
Theorem C1_oversized_patch_size ratio (p0 p1 p2 : Z) (w : World Patch) ds w' :
  length (shrink_size _prepare_transform) = 6%nat ->
  __init__ ratio (PyTuple [p0; p1; p2]) w = Ok (ds, w') ->
  exists vA vB vC,
    w_volumes w' = w_volumes w ++ [vA; vB; vC] /\
    Forall (fun v => GroundTruthVolume.patch_size v =
                       [p0 + nth 0 (shrink_size _prepare_transform) 0
                           + nth 3 (shrink_size _prepare_transform) 0;
                        p1 + nth 1 (shrink_size _prepare_transform) 0
                           + nth 4 (shrink_size _prepare_transform) 0;
                        p2 + nth 2 (shrink_size _prepare_transform) 0
                           + nth 5 (shrink_size _prepare_transform) 0])
           [vA; vB; vC].
Proof.
  intros Hlen Hinit.
  apply init_inv in Hinit as (_ & vA & vB & vC & EA & EB & EC & _ & ->).
  exists vA, vB, vC. split; [reflexivity|].
  apply load_volume_inv in EA as (? & ? & _ & _ & ->).
  apply load_volume_inv in EB as (? & ? & _ & _ & ->).
  apply load_volume_inv in EC as (? & ? & _ & _ & ->).
  unfold before_of. cbn [broadcast].
  rewrite (patch_size_before_transform_6 _ _ _ _ Hlen).
  repeat constructor.
Qed.

(** C3, as amended: construction raises an AssertionError when the split
    ratio is outside (0.5, 1), whatever the patch size; when the three
    volumes load, it returns exactly when the ratio is inside (0.5, 1),
    for every integer and every tuple given as patch size; and an integer
    [p] is broadcast to [(p, p, p)]. *)
Theorem C3_construction_checks_the_ratio_only ratio ps (w : World Patch) :
  (~ in_open_interval ratio -> __init__ ratio ps w = Raise AssertionError) /\
  ((forall file, file ∈ files ->
      returns (from_h5 file "volumes/raw") /\
      returns (from_h5 file "volumes/labels/neuron_ids")) ->
   (returns (__init__ ratio ps w) <-> in_open_interval ratio)) /\
  (forall p ds w',
      __init__ ratio (PyInt p) w = Ok (ds, w') ->
      CremiDataset.patch_size ds = [p; p; p]).
Proof.
  split; [apply init_rejects|]. split.
  - intros Hload. split.
    + intros [[ds w'] H]. now apply init_inv in H as [H _].
    + intros Hratio.
      assert (HA : returns (load_volume fileA (before_of ps))).
      { apply load_volume_returns; apply Hload; unfold files;
          repeat constructor. }
      assert (HB : returns (load_volume fileB (before_of ps))).
      { apply load_volume_returns; apply Hload; unfold files;
          repeat constructor. }
      assert (HC : returns (load_volume fileC (before_of ps))).
      { apply load_volume_returns; apply Hload; unfold files;
          repeat constructor. }
      destruct HA as [vA HA], HB as [vB HB], HC as [vC HC].
      eexists. apply (init_returns _ _ _ _ _ _ Hratio HA HB HC).
  - intros p ds w' H.
    apply init_inv in H as (_ & vA & vB & vC & _ & _ & _ & -> & _).
    reflexivity.
Qed.

(** C4: after construction the validation set is the first volume loaded,
    the training set is the other two in load order, and no volume is in
    both. *)
Theorem C4_validation_first_training_rest ratio ps (w : World Patch) ds w' :
  __init__ ratio ps w = Ok (ds, w') ->
  exists rA rB rC vA vB vC,
    load_volume fileA (before_of ps) = Ok vA /\
    load_volume fileB (before_of ps) = Ok vB /\
    load_volume fileC (before_of ps) = Ok vC /\
    w_volumes w' !! rA = Some vA /\
    w_volumes w' !! rB = Some vB /\
    w_volumes w' !! rC = Some vC /\
    validation_volumes ds = [rA] /\
    training_volumes ds = [rB; rC] /\
    (forall r, r ∈ training_volumes ds -> r ∉ validation_volumes ds) /\
    (forall r, r ∈ validation_volumes ds -> r ∉ training_volumes ds).
Proof.
  intros H.
  apply init_inv in H as (_ & vA & vB & vC & EA & EB & EC & -> & ->).
  set (n := length (w_volumes w)).
  exists n, (S n), (S (S n)), vA, vB, vC.
  assert (Hlook : forall k v, [vA; vB; vC] !! k = Some v ->
            w_volumes (with_volumes w [vA; vB; vC]) !! (n + k)%nat = Some v).
  { intros k v Hk. unfold with_volumes. cbn [w_volumes].
    rewrite lookup_app_r by (unfold n; lia).
    replace (n + k - length (w_volumes w))%nat with k by (unfold n; lia).
    exact Hk. }
  repeat split; try assumption; try reflexivity.
  - rewrite <- (Nat.add_0_r n). now apply Hlook.
  - replace (S n) with (n + 1)%nat by lia. now apply Hlook.
  - replace (S (S n)) with (n + 2)%nat by lia. now apply Hlook.
  - cbn [built training_volumes validation_volumes]. intros r Hr Hv.
    apply list_elem_of_singleton in Hv. subst r.
    apply elem_of_cons in Hr as [Hr|Hr]; [lia|].
    apply list_elem_of_singleton in Hr. lia.
  - cbn [built training_volumes validation_volumes]. intros r Hv Hr.
    apply list_elem_of_singleton in Hv. subst r.
    apply elem_of_cons in Hr as [Hr|Hr]; [lia|].
    apply list_elem_of_singleton in Hr. lia.
Qed.

(** C6: when [random_training_patch] returns, the last three axes of the
    patch it returns are the configured patch size. *)
Theorem C6_training_patch_has_the_patch_size self (w : World Patch) patch w' :
  random_training_patch self w = Ok (patch, w') ->
  exists p,
    w_patches w' !! patch = Some p /\
    slice_last 3 (shape p) = CremiDataset.patch_size self.
Proof. intros H. now apply random_training_patch_inv in H as [_ H]. Qed.

(** C9: two split ratios inside (0.5, 1) give the same dataset and the same
    world, so every later request behaves alike; the dataset has no field
    for the ratio. *)
Theorem C9_split_ratio_is_ignored r1 r2 ps (w : World Patch) :
  in_open_interval r1 -> in_open_interval r2 ->
  __init__ r1 ps w = __init__ r2 ps w.
Proof.
  intros [G1 L1] [G2 L2]. unfold __init__, mbind, lift.
  rewrite G1, G2. cbn [assert]. rewrite L1, L2. reflexivity.
Qed.

End CremiDatasetClaims.

Section PipelineClaims.
Import Py Float Array CremiDataset.
Context {C : Collaborators}.
Local Open Scope Z_scope.

Lemma stages_three_stages volumes transform (w : World Patch) patch w' :
  stages volumes transform w = Ok (patch, w') ->
  three_stages volumes transform w patch w'.
Proof.
  intros H.
  apply stages_inv in H
    as (volume & v & p1 & t1 & p2 & t2 & p3 & Hin & Hv & H1 & H2 & H3 & Hp & ->).
  exists volume, v, p1, t1, p2, t2, p3.
  subst patch. repeat split; first [assumption | reflexivity].
Qed.

(** Case analysis on an index into a list that is written out. *)
Ltac split_index H i :=
  cbn in H;
  first [ discriminate H
        | destruct i as [|i]; [ injection H as H | split_index H i ] ].

Lemma intensity_before_geometric i j x y :
  position i x -> position j y ->
  Transform.intensity x = true -> Transform.geometric y = true ->
  (i < j)%nat.
Proof.
  unfold position. cbn [Transform.members _prepare_transform].
  intros Hi Hj Hx Hy.
  split_index Hi i; subst x; try discriminate Hx;
    split_index Hj j; subst y; try discriminate Hy; lia.
Qed.

Lemma random_choice_run {A} (seq : list A) (w : World Patch) x :
  seq !! (fst (draw (w_tape w)) mod length seq)%nat = Some x ->
  random_choice seq w =
    Ok (x, {| w_volumes := w_volumes w;
              w_patches := w_patches w;
              w_tape := snd (draw (w_tape w));
              w_calls := w_calls w |}).
Proof.
  intros H. unfold random_choice.
  destruct (draw (w_tape w)) as [d tape]. cbn [fst snd] in *.
  now rewrite H.
Qed.

(** What the three stages give once the volume is drawn. *)
Lemma stages_run volumes transform (w : World Patch) volume v :
  volumes !! (fst (draw (w_tape w)) mod length volumes)%nat = Some volume ->
  w_volumes w !! volume = Some v ->
  stages volumes transform w =
    match random_patch v (snd (draw (w_tape w))) with
    | Raise e => Raise e
    | Ok (p1, t1) =>
        match transform_call transform p1 t1 with
        | Raise e => Raise e
        | Ok (p2, t2) =>
            match apply_delayed_shrink_size p2 with
            | Raise e => Raise e
            | Ok p3 => Ok (length (w_patches w), after_stages w volume p3 t2)
            end
        end
    end.
Proof.
  intros Hvolume Hv. unfold stages. unfold mbind at 1.
  rewrite (random_choice_run _ _ _ Hvolume).
  unfold mbind at 1. unfold volume_random_patch.
  cbn [w_volumes w_patches w_tape w_calls]. rewrite Hv.
  destruct (random_patch v (snd (draw (w_tape w)))) as [[p1 t1]|]; [|reflexivity].
  unfold mbind at 1. unfold call.
  cbn [w_volumes w_patches w_tape w_calls]. rewrite lookup_snoc.
  destruct (transform_call transform p1 t1) as [[p2 t2]|]; [|reflexivity].
  unfold mbind at 1. unfold patch_apply_delayed_shrink_size.
  cbn [w_volumes w_patches w_tape w_calls]. rewrite insert_snoc, lookup_snoc.
  destruct (apply_delayed_shrink_size p2) as [p3|]; [|reflexivity].
  cbn [w_volumes w_patches w_tape w_calls]. rewrite insert_snoc.
  unfold ret, after_stages. do 2 f_equal. f_equal.
  rewrite <- !app_assoc. reflexivity.
Qed.

(** A training request is the three stages and then the assertion. *)
Lemma random_training_patch_stages (self : CremiDataset.t) (w : World Patch) :
  random_training_patch self w =
    match stages (training_volumes self) (transform self) w with
    | Raise e => Raise e
    | Ok (patch, w') =>
        match w_patches w' !! patch with
        | None => Raise RuntimeError
        | Some p =>
            if tuple_eqb (slice_last 3 (shape p)) (CremiDataset.patch_size self)
            then Ok (patch, w')
            else Raise AssertionError
        end
    end.
Proof.
  unfold random_training_patch, stages, mbind, lift, ret.
  destruct (random_choice (training_volumes self) w) as [[volume w0]|];
    [|reflexivity].
  destruct (volume_random_patch volume w0) as [[patch w1]|]; [|reflexivity].
  destruct (call (transform self) patch w1) as [[[] w2]|]; [|reflexivity].
  destruct (patch_apply_delayed_shrink_size patch w2) as [[[] w3]|];
    [|reflexivity].
  unfold patch_shape.
  destruct (w_patches w3 !! patch) as [p|]; [|reflexivity].
  now destruct (tuple_eqb _ _).
Qed.

(** C5: a request draws a patch from the volume that was chosen, passes
    that patch object through the pipeline and then crops it, in this
    order: once the volume is chosen, the outcome of the request is the
    outcome of these three calls, each on what the one before left, and a
    request that returns has logged exactly these three calls on one patch
    object. In the pipeline the six intensity and noise transforms are the
    members before any geometric one, and Flip and Transpose come after
    Perspective2D. *)
Theorem C5_three_stages_and_pipeline_order :
  (forall self (w : World Patch) patch w',
      random_training_patch self w = Ok (patch, w') ->
      three_stages (training_volumes self) (transform self) w patch w') /\
  (forall self (w : World Patch) patch w',
      random_validation_patch self w = Ok (patch, w') ->
      three_stages (validation_volumes self) (transform self) w patch w') /\
  (forall self (w : World Patch) volume v,
      training_volumes self
        !! (fst (draw (w_tape w)) mod length (training_volumes self))%nat
        = Some volume ->
      w_volumes w !! volume = Some v ->
      random_training_patch self w =
        match random_patch v (snd (draw (w_tape w))) with
        | Raise e => Raise e
        | Ok (p1, t1) =>
            match transform_call (transform self) p1 t1 with
            | Raise e => Raise e
            | Ok (p2, t2) =>
                match apply_delayed_shrink_size p2 with
                | Raise e => Raise e
                | Ok p3 =>
                    if tuple_eqb (slice_last 3 (shape p3))
                         (CremiDataset.patch_size self)
                    then Ok (length (w_patches w), after_stages w volume p3 t2)
                    else Raise AssertionError
                end
            end
        end) /\
  (forall self (w : World Patch) volume v,
      validation_volumes self
        !! (fst (draw (w_tape w)) mod length (validation_volumes self))%nat
        = Some volume ->
      w_volumes w !! volume = Some v ->
      random_validation_patch self w =
        match random_patch v (snd (draw (w_tape w))) with
        | Raise e => Raise e
        | Ok (p1, t1) =>
            match transform_call (transform self) p1 t1 with
            | Raise e => Raise e
            | Ok (p2, t2) =>
                match apply_delayed_shrink_size p2 with
                | Raise e => Raise e
                | Ok p3 => Ok (length (w_patches w), after_stages w volume p3 t2)
                end
            end
        end) /\
  filter (fun x => Transform.intensity x) (Transform.members _prepare_transform) =
    [Transform.NormalizeTo01 f64_1; Transform.AdjustBrightness;
     Transform.AdjustContrast; Transform.Gamma;
     Transform.OneOf [Transform.Noise; Transform.GaussianBlur2D];
     Transform.BlackBox] /\
  (forall i j x y,
      position i x -> position j y ->
      Transform.intensity x = true -> Transform.geometric y = true ->
      (i < j)%nat) /\
  (exists i j k,
      position i Transform.Perspective2D /\
      position j Transform.Flip /\
      position k Transform.Transpose /\
      (i < j)%nat /\ (i < k)%nat).
Proof.
  split; [|split; [|split; [|split; [|split; [|split]]]]].
  - intros self w patch w' H.
    apply random_training_patch_inv in H as [H _].
    now apply stages_three_stages.
  - intros self w patch w' H.
    rewrite random_validation_patch_stages in H.
    now apply stages_three_stages.
  - intros self w volume v Hvolume Hv.
    rewrite random_training_patch_stages, (stages_run _ _ _ _ _ Hvolume Hv).
    destruct (random_patch v (snd (draw (w_tape w)))) as [[p1 t1]|];
      [|reflexivity].
    destruct (transform_call (transform self) p1 t1) as [[p2 t2]|];
      [|reflexivity].
    destruct (apply_delayed_shrink_size p2) as [p3|]; [|reflexivity].
    unfold after_stages at 1. cbn [w_patches]. now rewrite lookup_snoc.
  - intros self w volume v Hvolume Hv.
    rewrite random_validation_patch_stages.
    apply (stages_run _ _ _ _ _ Hvolume Hv).
  - reflexivity.
  - apply intensity_before_geometric.
  - exists 6%nat, 7%nat, 8%nat. unfold position. repeat split; lia.
Qed.




End PipelineClaims.

(** *** The claims at the scenario of the specification *)

Section ScenarioClaims.
Import Py Float Array CremiDataset.
Local Open Scope Z_scope.

(** C2: at [patch_size=(2, 2, 2, 2)], which the constructor lets through,
    [random_validation_patch] returns a patch whose last three axes are
    (2, 2, 2) and not the configured patch size, without a check, where
    [random_training_patch] raises an AssertionError. *)
Theorem C2_validation_patch_is_not_checked :
  eval (sample_shape (C:=SpecModel.scenario) random_validation_patch
          SpecModel.f64_0_9 (PyTuple [2; 2; 2; 2]))
       (SpecModel.fresh [5; 4; 3; 2; 1]%nat)
    = Ok ([1; 1; 2; 2; 2], [2; 2; 2; 2]) /\
  eval (sample_shape (C:=SpecModel.scenario) random_training_patch
          SpecModel.f64_0_9 (PyTuple [2; 2; 2; 2]))
       (SpecModel.fresh [5; 4; 3; 2; 1]%nat)
    = Raise AssertionError.
Proof. split; vm_compute; reflexivity. Qed.

Lemma C1_oversized_patch_size_witness :
  exists vA vB vC,
    w_volumes (SpecModel.loaded [] [12; 12; 12]) = [vA; vB; vC] /\
    Forall (fun v => GroundTruthVolume.patch_size v = [12; 12; 12]) [vA; vB; vC].
Proof.
  apply (C1_oversized_patch_size (C:=SpecModel.scenario) SpecModel.f64_0_9 8 8 8
           (SpecModel.fresh [])
           (built (PyTuple [8; 8; 8]) 0)
           (SpecModel.loaded [] [12; 12; 12])).
  - vm_compute. reflexivity.
  - vm_compute. reflexivity.
Defined.

(** C3 as the specification states it fails at [patch_size=-1]: the
    construction returns although the patch size is not positive. *)
Lemma C3_counterexample :
  ~ (returns (__init__ (C:=SpecModel.scenario) SpecModel.f64_0_9 (PyInt (-1))
                (SpecModel.fresh []))
     <-> in_open_interval SpecModel.f64_0_9 /\ positive_patch_size (PyInt (-1))).
Proof.
  intros [H _].
  assert (Hret : returns (__init__ (C:=SpecModel.scenario) SpecModel.f64_0_9
                            (PyInt (-1)) (SpecModel.fresh []))).
  { apply is_ok_returns. vm_compute. reflexivity. }
  apply H in Hret as [_ Hpos]. simpl in Hpos. lia.
Qed.

Lemma scenario_files_load file :
  file ∈ files ->
  returns (from_h5 (Collaborators:=SpecModel.scenario) file "volumes/raw") /\
  returns (from_h5 (Collaborators:=SpecModel.scenario) file
             "volumes/labels/neuron_ids").
Proof.
  unfold files. intros Hin.
  repeat (apply elem_of_cons in Hin as [->|Hin]);
    [| | |now apply elem_of_nil in Hin];
    split; apply is_ok_returns; vm_compute; reflexivity.
Defined.

Lemma C3_construction_checks_the_ratio_only_witness :
  __init__ (C:=SpecModel.scenario) f64_1 (PyInt (-1)) (SpecModel.fresh [])
    = Raise AssertionError /\
  returns (__init__ (C:=SpecModel.scenario) SpecModel.f64_0_9 (PyInt (-1))
             (SpecModel.fresh [])) /\
  CremiDataset.patch_size (built (PyInt (-1)) 0) = [-1; -1; -1].
Proof.
  split; [|split].
  - apply (proj1 (C3_construction_checks_the_ratio_only (C:=SpecModel.scenario)
                    f64_1 (PyInt (-1)) (SpecModel.fresh []))).
    intros [_ H]. vm_compute in H. discriminate H.
  - apply (proj1 (proj2 (C3_construction_checks_the_ratio_only
                           (C:=SpecModel.scenario)
                           SpecModel.f64_0_9 (PyInt (-1)) (SpecModel.fresh [])))).
    + exact scenario_files_load.
    + split; vm_compute; reflexivity.
  - apply (proj2 (proj2 (C3_construction_checks_the_ratio_only
                           (C:=SpecModel.scenario)
                           SpecModel.f64_0_9 (PyInt (-1)) (SpecModel.fresh [])))
             (-1) (built (PyInt (-1)) 0) (SpecModel.loaded [] [3; 3; 3])).
    vm_compute. reflexivity.
Defined.

Lemma C4_validation_first_training_rest_witness :
  validation_volumes (built (PyTuple [2; 2; 2]) 0) = [0%nat] /\
  training_volumes (built (PyTuple [2; 2; 2]) 0) = [1%nat; 2%nat] /\
  1%nat ∉ validation_volumes (built (PyTuple [2; 2; 2]) 0).
Proof.
  destruct (C4_validation_first_training_rest (C:=SpecModel.scenario)
              SpecModel.f64_0_9 (PyTuple [2; 2; 2]) (SpecModel.fresh [])
              (built (PyTuple [2; 2; 2]) 0) (SpecModel.loaded [] [6; 6; 6]))
    as (rA & rB & rC & vA & vB & vC & _ & _ & _ & _ & _ & _ & HV & HT & Hd & _).
  - vm_compute. reflexivity.
  - split; [reflexivity|]. split; [reflexivity|].
    apply Hd. repeat constructor.
Defined.

Lemma C5_three_stages_and_pipeline_order_witness :
  random_training_patch (C:=SpecModel.scenario)
    (built (PyTuple [2; 2; 2]) 0)
    (SpecModel.loaded [5; 4; 3; 2]%nat [6; 6; 6])
  = Ok (0%nat,
        after_stages (C:=SpecModel.scenario)
          (SpecModel.loaded [5; 4; 3; 2]%nat [6; 6; 6]) 2
          (SpecModel.cropped [2; 3; 2]) []).
Proof.
  rewrite (proj1 (proj2 (proj2
             (C5_three_stages_and_pipeline_order (C:=SpecModel.scenario))))
             (built (PyTuple [2; 2; 2]) 0)
             (SpecModel.loaded [5; 4; 3; 2]%nat [6; 6; 6])
             2%nat (SpecModel.volume 3 [6; 6; 6])).
  - vm_compute. reflexivity.
  - vm_compute. reflexivity.
  - vm_compute. reflexivity.
Defined.

Lemma C6_training_patch_has_the_patch_size_witness :
  exists p,
    w_patches (after_stages (C:=SpecModel.scenario)
                 (SpecModel.loaded [5; 4; 3; 2]%nat [6; 6; 6]) 2
                 (SpecModel.cropped [2; 3; 2]) []) !! 0%nat = Some p /\
    slice_last 3 (SpecModel.shape p) = [2; 2; 2].
Proof.
  apply (C6_training_patch_has_the_patch_size (C:=SpecModel.scenario)
           (built (PyTuple [2; 2; 2]) 0)
           (SpecModel.loaded [5; 4; 3; 2]%nat [6; 6; 6])).
  vm_compute. reflexivity.
Defined.



Lemma C9_split_ratio_is_ignored_witness :
  __init__ (C:=SpecModel.scenario) SpecModel.f64_0_6 (PyTuple [2; 2; 2])
    (SpecModel.fresh [])
  = __init__ (C:=SpecModel.scenario) SpecModel.f64_0_9 (PyTuple [2; 2; 2])
      (SpecModel.fresh []).
Proof.
  apply (C9_split_ratio_is_ignored (C:=SpecModel.scenario)).
  - split; vm_compute; reflexivity.
  - split; vm_compute; reflexivity.
Defined.

End ScenarioClaims.

(* ===================================================================== *)
(** ** Properties of the network *)
(* ===================================================================== *)

Section TorchFacts.
Import Py Torch.
Local Open Scope N_scope.

Lemma broadcast_dim_self (a : N) : broadcast_dim a a = Some a.
Proof. unfold broadcast_dim. now rewrite N.eqb_refl. Qed.

Lemma broadcast_rev_self (x : Size) : broadcast_rev x x = Ok x.
Proof.
  induction x as [|a x IH]; [reflexivity|].
  cbn [broadcast_rev]. rewrite broadcast_dim_self, IH. reflexivity.
Qed.

(** A residual connection keeps the size. *)
Lemma add_self (x : Size) : add x x = Ok x.
Proof.
  unfold add. rewrite broadcast_rev_self. cbn [bind].
  now rewrite rev_involutive.
Qed.

Lemma linear_3 (i o b n : N) : linear i o [b; n; i] = Ok [b; n; o].
Proof. unfold linear. cbn [split_last]. now rewrite N.eqb_refl. Qed.

Lemma layer_norm_3 (dim b n : N) : layer_norm dim [b; n; dim] = Ok [b; n; dim].
Proof. unfold layer_norm. cbn [split_last]. now rewrite N.eqb_refl. Qed.

(** The projection to queries, keys and values splits in three equal parts. *)
Lemma chunk_3 (b n k : N) :
  chunk 3 [b; n; k * 3] = Ok [[b; n; k]; [b; n; k]; [b; n; k]].
Proof.
  unfold chunk. cbn [split_last].
  assert (Hs : (k * 3 + 3 - 1) / 3 = k).
  { symmetry. apply (N.div_unique _ _ _ 2); lia. }
  rewrite Hs.
  destruct (N.eqb_spec k 0) as [->|Hk]; [reflexivity|].
  assert (Hp : (k * 3 + k - 1) / k = 3).
  { symmetry. apply (N.div_unique _ _ _ (k - 1)); lia. }
  rewrite Hp.
  replace (k * 3 - k * (3 - 1)) with k by lia.
  reflexivity.
Qed.

Lemma split_heads_3 (b n h d : N) :
  0 < h -> rearrange (split_heads h) [b; n; d * h] = Ok [b; h; n; d].
Proof.
  intros Hh. cbn [rearrange].
  destruct (N.eqb_spec h 0) as [->|Hne]; [lia|].
  rewrite N.Div0.mod_mul, N.eqb_refl.
  now rewrite N.div_mul.
Qed.

End TorchFacts.

Section NetworkFacts.
Import Py Torch.
Local Open Scope N_scope.

(** Attention keeps the size (batch, n, dim). *)
Lemma attention_forward (dim heads dim_head : N) (a : Attention.t) (b n : N) :
  0 < heads ->
  Attention.__init__ dim heads dim_head = Ok a ->
  Attention.forward a [b; n; dim] = Ok [b; n; dim].
Proof.
  intros Hh. unfold Attention.__init__.
  destruct (N.eqb_spec dim_head 0) as [_|Hd]; [discriminate|].
  intros H. injection H as <-.
  unfold Attention.forward.
  cbn [Attention.heads Attention.attend Attention.to_qkv Attention.to_out
       Torch.forward].
  rewrite linear_3. cbn [bind].
  rewrite chunk_3. cbn [bind map].
  rewrite (split_heads_3 b n heads dim_head Hh). cbn [bind].
  cbn [einsum_bhid_bhjd]. rewrite !broadcast_dim_self.
  cbn [bind softmax split_last einsum_bhij_bhjd]. rewrite !broadcast_dim_self.
  cbn [bind rearrange].
  destruct (N.eqb_spec heads 1) as [->|Hne]; cbn [andb negb].
  - destruct (N.eqb_spec dim_head dim) as [->|Hnd]; cbn [negb Torch.forward bind].
    + now rewrite N.mul_1_l.
    + rewrite N.mul_1_l, N.mul_1_r. now rewrite linear_3.
  - cbn [Torch.forward bind]. rewrite (N.mul_comm heads dim_head).
    now rewrite linear_3.
Qed.

(** The feed-forward block keeps the size (batch, n, dim). *)
Lemma feed_forward_forward (dim hidden b n : N) :
  FeedForward.forward (FeedForward.__init__ dim hidden) [b; n; dim]
    = Ok [b; n; dim].
Proof.
  unfold FeedForward.forward, FeedForward.__init__.
  cbn [FeedForward.net Torch.forward]. rewrite linear_3. cbn [bind].
  now rewrite linear_3.
Qed.

(** The layers that the loop of [Transformer.__init__] appends. *)
Lemma build_repeat dim depth heads dim_head mlp_dim a layers :
  Attention.__init__ dim heads dim_head = Ok a ->
  Transformer.build dim depth heads dim_head mlp_dim layers =
    Ok (layers ++
        repeat (PreNorm.__init__ dim (PreNorm.attention a),
                PreNorm.__init__ dim
                  (PreNorm.feed_forward (FeedForward.__init__ dim mlp_dim)))
               depth).
Proof.
  intros Ha. revert layers.
  induction depth as [|depth IH]; intros layers; cbn [Transformer.build repeat].
  - now rewrite app_nil_r.
  - rewrite Ha. cbn [bind]. rewrite IH, <- app_assoc. reflexivity.
Qed.

(** One layer after the other, the size (batch, n, dim) is kept. *)
Lemma run_repeat dim heads dim_head mlp_dim a depth (b n : N) :
  0 < heads ->
  Attention.__init__ dim heads dim_head = Ok a ->
  Transformer.run
    (repeat (PreNorm.__init__ dim (PreNorm.attention a),
             PreNorm.__init__ dim
               (PreNorm.feed_forward (FeedForward.__init__ dim mlp_dim)))
            depth)
    [b; n; dim] = Ok [b; n; dim].
Proof.
  intros Hh Ha.
  induction depth as [|depth IH]; cbn [repeat Transformer.run]; [reflexivity|].
  unfold PreNorm.forward, PreNorm.__init__.
  cbn [PreNorm.norm PreNorm.fn Torch.forward].
  rewrite layer_norm_3. cbn [bind].
  rewrite (attention_forward _ _ _ _ _ _ Hh Ha). cbn [bind].
  rewrite add_self. cbn [bind].
  rewrite layer_norm_3. cbn [bind].
  rewrite feed_forward_forward. cbn [bind].
  rewrite add_self. cbn [bind].
  exact IH.
Qed.

(** The transformer keeps the size (batch, n, dim). *)
Lemma transformer_forward dim depth heads dim_head mlp_dim tr (b n : N) :
  depth = O \/ 0 < heads ->
  Transformer.__init__ dim depth heads dim_head mlp_dim = Ok tr ->
  Transformer.forward tr [b; n; dim] = Ok [b; n; dim].
Proof.
  intros Hh. unfold Transformer.__init__, Transformer.forward.
  destruct depth as [|depth].
  - cbn [Transformer.build bind]. intros H. injection H as <-. reflexivity.
  - destruct Hh as [Hh|Hh]; [discriminate|].
    destruct (Attention.__init__ dim heads dim_head) as [a|e] eqn:Ha.
    + rewrite (build_repeat _ _ _ _ _ a _ Ha). cbn [bind app].
      intros H. injection H as <-. cbn [Transformer.layers].
      exact (run_repeat dim heads dim_head mlp_dim a (S depth) b n Hh Ha).
    + cbn [Transformer.build]. rewrite Ha. discriminate.
Qed.

End NetworkFacts.

Section ViTClaims.
Import Py Torch.
Local Open Scope N_scope.

Lemma int64_small (z : Z) : (0 <= z < 2 ^ 63)%Z -> int64 z = z.
Proof.
  intros Hz. unfold int64.
  change (2 ^ 63)%Z with 9223372036854775808%Z in *.
  change (2 ^ 64)%Z with 18446744073709551616%Z.
  rewrite Z.mod_small; lia.
Qed.

(** Below [2 ^ 63] the product of numpy is the product. *)
Lemma times_product_small (ps : list N) (c : N) :
  fold_right N.mul 1 ps < 2 ^ 63 ->
  fold_right N.mul 1 ps * c < 2 ^ 63 ->
  times (product ps) c = Z.of_N (fold_right N.mul 1 ps * c).
Proof.
  intros Hp Hc. unfold times, product.
  change (2 ^ 63) with 9223372036854775808 in *.
  rewrite (int64_small (Z.of_N _));
    [|change (2 ^ 63)%Z with 9223372036854775808%Z; lia].
  rewrite <- N2Z.inj_mul. apply int64_small.
  change (2 ^ 63)%Z with 9223372036854775808%Z. lia.
Qed.

Lemma new_linear_inv_l (i : Z) (o : N) (m : Module_) :
  new_linear i (Z.of_N o) = Ok m -> (0 <= i)%Z /\ m = Linear (Z.to_N i) o.
Proof.
  unfold new_linear. destruct (Z.ltb_spec i 0) as [Hi|Hi]; [discriminate|].
  destruct (Z.ltb_spec (Z.of_N o) 0) as [Ho|Ho]; [lia|]. cbn [orb].
  intros E. injection E as <-. now rewrite N2Z.id.
Qed.

Lemma new_linear_inv_r (i : N) (o : Z) (m : Module_) :
  new_linear (Z.of_N i) o = Ok m -> (0 <= o)%Z /\ m = Linear i (Z.to_N o).
Proof.
  unfold new_linear. destruct (Z.ltb_spec (Z.of_N i) 0) as [Hi|Hi]; [lia|].
  destruct (Z.ltb_spec o 0) as [Ho|Ho]; [discriminate|]. cbn [orb].
  intros E. injection E as <-. now rewrite N2Z.id.
Qed.

(** Patches are flattened and embedded. *)
Lemma embed_patch_forward (len c z y x e b n : N) :
  c * z * y * x = len ->
  Torch.forward (Sequential [Rearrange flatten_patch; Linear len e])
    [b; n; c; z; y; x] = Ok [b; n; e].
Proof.
  intros <-. cbn [Torch.forward rearrange bind]. now rewrite linear_3.
Qed.

(** Embeddings are projected and cut back into patches. *)
Lemma unembed_patch_forward (len pz py px c e b n : N) :
  len = c * pz * py * px ->
  Torch.forward
    (Sequential [Linear e len; Rearrange (unflatten_patch c pz py px)])
    [b; n; e] = Ok [b; n; c; pz; py; px].
Proof.
  intros ->. cbn [Torch.forward]. rewrite linear_3. cbn [bind rearrange].
  now rewrite N.eqb_refl.
Qed.

Lemma str_in_In (x : string) (s : list string) :
  ViT.str_in x s = true <-> In x s.
Proof.
  unfold ViT.str_in. rewrite existsb_exists. split.
  - intros (y & Hy & Heq). apply String.eqb_eq in Heq. now subst.
  - intros H. exists x. split; [exact H|apply String.eqb_refl].
Qed.

(** The network that [ViT.__init__] returns. *)
Lemma vit_init_inv (kw : ViT.kwargs) (vit : ViT.t) :
  ViT.__init__ kw = Ok vit ->
  In (ViT.pos_embedding kw) ViT.pos_embedding_types /\
  exists pz py px tr,
    ViT.patch_size kw = [pz; py; px] /\
    Transformer.__init__ (ViT.patch_emb_dim kw) (ViT.depth kw) (ViT.heads kw)
      (ViT.dim_head kw) (ViT.mlp_dim kw) = Ok tr /\
    (0 <= times (product [pz; py; px]) (ViT.in_channels kw))%Z /\
    (0 <= times (product [pz; py; px]) (ViT.out_channels kw))%Z /\
    vit = {| ViT.embed_patch :=
               Sequential [Rearrange flatten_patch;
                           Linear (Z.to_N (times (product [pz; py; px])
                                             (ViT.in_channels kw)))
                                  (ViT.patch_emb_dim kw)];
             ViT.self_pos_embedding := None;
             ViT.dropout := Dropout;
             ViT.transformer := tr;
             ViT.unembed_patch :=
               Sequential [Linear (ViT.patch_emb_dim kw)
                                  (Z.to_N (times (product [pz; py; px])
                                             (ViT.out_channels kw)));
                           Rearrange (unflatten_patch (ViT.out_channels kw)
                                        pz py px)] |}.
Proof.
  unfold ViT.__init__.
  destruct (ViT.str_in (ViT.pos_embedding kw) ViT.pos_embedding_types) eqn:Hpe;
    [|discriminate].
  cbn [assert bind].
  destruct (ViT.patch_size kw) as [|pz [|py [|px [|? ?]]]] eqn:Hps;
    try discriminate.
  destruct (new_linear (times (product [pz; py; px]) (ViT.in_channels kw))
              (Z.of_N (ViT.patch_emb_dim kw))) as [embed|] eqn:He;
    [|discriminate].
  apply new_linear_inv_l in He as [Hin ->]. cbn [bind].
  destruct (Transformer.__init__ _ _ _ _ _) as [tr|] eqn:Htr; [|discriminate].
  cbn [bind].
  destruct (new_linear (Z.of_N (ViT.patch_emb_dim kw))
              (times (product [pz; py; px]) (ViT.out_channels kw)))
    as [unembed|] eqn:Hu; [|discriminate].
  apply new_linear_inv_r in Hu as [Hout ->]. cbn [bind].
  intros H. injection H as <-.
  split; [now apply str_in_In|].
  exists pz, py, px, tr. repeat split; try assumption.
  now destruct (String.eqb _ _).
Qed.

(** The forward pass once the two linear layers have the sizes that the
    input and the output need. *)
Lemma vit_forward (kw : ViT.kwargs) (vit : ViT.t) (pz py px b n c z y x : N) :
  ViT.__init__ kw = Ok vit ->
  ViT.patch_size kw = [pz; py; px] ->
  ViT.depth kw = O \/ 0 < ViT.heads kw ->
  ViT.no_overflow kw ->
  c * z * y * x = ViT.in_channels kw * pz * py * px ->
  ViT.forward vit [b; n; c; z; y; x]
    = Ok [b; n; ViT.out_channels kw; pz; py; px].
Proof.
  intros Hinit Hps Hheads Hfit Hlen.
  apply vit_init_inv in Hinit
    as (_ & pz' & py' & px' & tr & Hps' & Htr & _ & _ & ->).
  rewrite Hps in Hps'. injection Hps' as <- <- <-.
  unfold ViT.no_overflow in Hfit. rewrite Hps in Hfit.
  destruct Hfit as (Hv & Hi & Ho).
  rewrite !(times_product_small [pz; py; px]) by assumption.
  rewrite !N2Z.id.
  unfold ViT.forward.
  cbn [ViT.embed_patch ViT.self_pos_embedding ViT.dropout ViT.transformer
       ViT.unembed_patch].
  rewrite (embed_patch_forward _ c z y x)
    by (rewrite Hlen; cbn [fold_right]; lia).
  cbn [bind Torch.forward].
  rewrite (transformer_forward _ _ _ _ _ _ _ _ Hheads Htr). cbn [bind].
  apply unembed_patch_forward. cbn [fold_right]. lia.
Qed.

(** C8, as amended: a network that was constructed for patches of
    (pz, py, px) voxels with at least one head (or no layer at all), and
    whose sizes do not overflow the int64 of [np.product], maps every tensor
    of size (batch, n, in_channels, pz, py, px) to a tensor of size
    (batch, n, out_channels, pz, py, px). *)
Theorem C8_forward_shape (kw : ViT.kwargs) (vit : ViT.t) (pz py px batch n : N) :
  ViT.__init__ kw = Ok vit ->
  ViT.patch_size kw = [pz; py; px] ->
  ViT.depth kw = O \/ 0 < ViT.heads kw ->
  ViT.no_overflow kw ->
  ViT.forward vit [batch; n; ViT.in_channels kw; pz; py; px]
    = Ok [batch; n; ViT.out_channels kw; pz; py; px].
Proof.
  intros Hinit Hps Hheads Hfit.
  now apply (vit_forward kw vit pz py px).
Qed.

Lemma C8_forward_shape_witness :
  ViT.forward
    {| ViT.embed_patch := Sequential [Rearrange flatten_patch; Linear 24 16];
       ViT.self_pos_embedding := None;
       ViT.dropout := Dropout;
       ViT.transformer :=
         {| Transformer.layers :=
              repeat
                (PreNorm.__init__ 16
                   (PreNorm.attention
                      {| Attention.heads := 2;
                         Attention.attend := Softmax;
                         Attention.to_qkv := Linear 16 384;
                         Attention.to_out := Sequential [Linear 128 16; Dropout] |}),
                 PreNorm.__init__ 16
                   (PreNorm.feed_forward (FeedForward.__init__ 16 32)))
                2 |};
       ViT.unembed_patch :=
         Sequential [Linear 16 72; Rearrange (unflatten_patch 3 2 3 4)] |}
    [5; 7; 1; 2; 3; 4]
  = Ok [5; 7; 3; 2; 3; 4].
Proof.
  apply (C8_forward_shape ViT.small _ 2 3 4 5 7).
  - vm_compute. reflexivity.
  - reflexivity.
  - right. reflexivity.
  - vm_compute. repeat split.
Defined.

(** C8 as the specification states it fails for a network with no head:
    the network is constructed, and [forward] raises on an input of the
    matching size. *)
Lemma C8_counterexample :
  ~ (forall vit, ViT.__init__ ViT.headless = Ok vit ->
                 ViT.forward vit [5; 7; 1; 2; 3; 4] = Ok [5; 7; 3; 2; 3; 4]).
Proof.
  intros H.
  destruct (ViT.__init__ ViT.headless) as [vit|e] eqn:Hinit.
  - specialize (H vit eq_refl).
    vm_compute in Hinit. injection Hinit as <-.
    vm_compute in H. discriminate H.
  - vm_compute in Hinit. discriminate Hinit.
Qed.

(** C10: for each of the five accepted values of [pos_embedding] the
    constructed network has no positional embedding, its [forward] is the
    [forward] without that step, and the network is the one that any
    other accepted value gives. *)
Theorem C10_pos_embedding_is_none (kw : ViT.kwargs) (pe : string) (vit : ViT.t) :
  In pe ViT.pos_embedding_types ->
  ViT.__init__ (ViT.with_pos_embedding kw pe) = Ok vit ->
  ViT.self_pos_embedding vit = None /\
  (forall img, ViT.forward vit img = ViT.forward_without_pos_embedding vit img) /\
  (forall pe', In pe' ViT.pos_embedding_types ->
               ViT.__init__ (ViT.with_pos_embedding kw pe') = Ok vit).
Proof.
  intros Hpe Hinit.
  assert (Hnone : ViT.self_pos_embedding vit = None).
  { apply vit_init_inv in Hinit as (_ & pz & py & px & tr & _ & _ & _ & _ & ->).
    reflexivity. }
  split; [exact Hnone|]. split.
  - intros img. unfold ViT.forward, ViT.forward_without_pos_embedding.
    rewrite Hnone. destruct (Torch.forward (ViT.embed_patch vit) img); reflexivity.
  - intros pe' Hpe'. rewrite <- Hinit. unfold ViT.__init__.
    cbn [ViT.with_pos_embedding ViT.pos_embedding ViT.patch_size ViT.in_channels
         ViT.out_channels ViT.patch_emb_dim ViT.depth ViT.heads ViT.mlp_dim
         ViT.dim_head].
    rewrite (proj2 (str_in_In _ _) Hpe), (proj2 (str_in_In _ _) Hpe').
    cbn [assert bind].
    destruct (ViT.patch_size kw) as [|pz [|py [|px [|? ?]]]]; try reflexivity.
    destruct (new_linear _ _); [|reflexivity]. cbn [bind].
    destruct (Transformer.__init__ _ _ _ _ _); [|reflexivity]. cbn [bind].
    destruct (new_linear _ _); [|reflexivity]. cbn [bind].
    destruct (String.eqb pe' EmptyString), (String.eqb pe EmptyString);
      reflexivity.
Qed.

Lemma C10_pos_embedding_is_none_witness :
  ViT.__init__ (ViT.with_pos_embedding ViT.small "learned")
  = ViT.__init__ (ViT.with_pos_embedding ViT.small "sin").
Proof.
  destruct (ViT.__init__ (ViT.with_pos_embedding ViT.small "sin"))
    as [vit|e] eqn:Hinit.
  - apply (C10_pos_embedding_is_none ViT.small "sin" vit).
    + vm_compute. tauto.
    + exact Hinit.
    + vm_compute. tauto.
  - vm_compute in Hinit. discriminate Hinit.
Defined.

End ViTClaims.

(* ===================================================================== *)
(** ** Further properties of [CremiDataset] *)
(* ===================================================================== *)

Section PyListFacts.
Import Py.

Lemma zip3_with_length {A B D E} (f : A -> B -> D -> E) x y z :
  length (zip3_with f x y z) =
    Nat.min (length x) (Nat.min (length y) (length z)).
Proof.
  revert y z. induction x as [|a x IH]; intros [|b y] [|c z];
    cbn [zip3_with length]; try lia.
  rewrite IH. lia.
Qed.

Lemma slice_to_length {A} (n : nat) (t : list A) :
  length (slice_to n t) = Nat.min n (length t).
Proof. unfold slice_to. apply length_take. Qed.

Lemma slice_last_length {A} (n : nat) (t : list A) :
  length (slice_last n t) = Nat.min n (length t).
Proof. unfold slice_last. rewrite length_drop. lia. Qed.

End PyListFacts.

Section CremiDatasetExtras.
Import Py Float Array CremiDataset.
Context {C : Collaborators}.
Local Open Scope Z_scope.

(** X1: a construction that returns has appended three volumes to the store
    and nothing else: it made no patch, drew no random number and called
    neither a volume nor the pipeline. *)
Theorem X1_construction_only_appends_volumes ratio ps (w : World Patch) ds w' :
  __init__ ratio ps w = Ok (ds, w') ->
  (exists vs, length vs = 3%nat /\ w_volumes w' = w_volumes w ++ vs) /\
  w_patches w' = w_patches w /\
  w_tape w' = w_tape w /\
  w_calls w' = w_calls w.
Proof.
  intros H.
  apply init_inv in H as (_ & vA & vB & vC & _ & _ & _ & _ & ->).
  split; [|repeat split].
  exists [vA; vB; vC]. split; reflexivity.
Qed.

(** The loop stops at the first file that does not load. *)
Lemma load_volumes_raises before pre file post e :
  forall volumes (w : World Patch),
  (forall f, f ∈ pre -> returns (load_volume f before)) ->
  load_volume file before = Raise e ->
  load_volumes (pre ++ file :: post) before volumes w = Raise e.
Proof.
  induction pre as [|f pre IH]; intros volumes w Hpre Hfile.
  - cbn [app load_volumes]. unfold mbind, lift. now rewrite Hfile.
  - cbn [app load_volumes]. unfold mbind at 1, lift.
    destruct (Hpre f) as [v Hv]; [constructor|]. rewrite Hv.
    unfold mbind at 1, new_volume.
    apply IH; [|exact Hfile].
    intros g Hg. apply Hpre. now constructor.
Qed.

(** X2: with a split ratio inside (0.5, 1), construction raises the
    exception of the first of the three files that does not load, in the
    order sample_A, sample_B, sample_C. *)
Theorem X2_construction_raises_the_first_load_error
  ratio ps (w : World Patch) pre file post e :
  in_open_interval ratio ->
  files = pre ++ file :: post ->
  (forall f, f ∈ pre -> returns (load_volume f (before_of ps))) ->
  load_volume file (before_of ps) = Raise e ->
  __init__ ratio ps w = Raise e.
Proof.
  intros [Hgt Hlt] Hfiles Hpre Hfile.
  unfold __init__.
  unfold mbind at 1, lift at 1. rewrite Hgt. cbn [assert].
  unfold mbind at 1, lift at 1. rewrite Hlt. cbn [assert].
  unfold mbind at 1, lift at 1.
  cbn [Transform.isinstance_Compose _prepare_transform assert].
  unfold mbind at 1. fold (before_of ps). rewrite Hfiles.
  now rewrite (load_volumes_raises _ _ _ _ e [] w Hpre Hfile).
Qed.

(** X4: on a dataset that the constructor built, a training request draws
    its patch from the second or the third volume loaded and a validation
    request from the first one; no training patch comes from the
    validation volume. *)
Theorem X4_training_never_draws_from_the_validation_volume
  ratio ps (w0 : World Patch) ds w0' :
  __init__ ratio ps w0 = Ok (ds, w0') ->
  let first := length (w_volumes w0) in
  (forall (w : World Patch) patch w',
      random_training_patch ds w = Ok (patch, w') ->
      exists volume,
        w_calls w' = w_calls w ++ [call_random_patch volume patch;
                                   call_transform patch;
                                   call_apply_delayed_shrink_size patch] /\
        (volume = S first \/ volume = S (S first)) /\
        volume ∉ validation_volumes ds) /\
  (forall (w : World Patch) patch w',
      random_validation_patch ds w = Ok (patch, w') ->
      w_calls w' = w_calls w ++ [call_random_patch first patch;
                                 call_transform patch;
                                 call_apply_delayed_shrink_size patch]).
Proof.
  intros Hinit first.
  apply init_inv in Hinit as (_ & vA & vB & vC & _ & _ & _ & -> & _).
  fold first. split.
  - intros w patch w' H.
    apply random_training_patch_inv in H as [H _].
    apply stages_inv in H
      as (volume & _ & _ & _ & _ & t2 & p3 & Hin & _ & _ & _ & _ & -> & ->).
    exists volume. cbn [built training_volumes validation_volumes] in *.
    split; [reflexivity|].
    apply elem_of_cons in Hin as [->|Hin].
    + split; [now left|]. intros Hv. apply list_elem_of_singleton in Hv. lia.
    + apply list_elem_of_singleton in Hin as ->.
      split; [now right|]. intros Hv. apply list_elem_of_singleton in Hv. lia.
  - intros w patch w' H.
    rewrite random_validation_patch_stages in H.
    apply stages_inv in H
      as (volume & _ & _ & _ & _ & t2 & p3 & Hin & _ & _ & _ & _ & -> & ->).
    cbn [built validation_volumes] in Hin.
    apply list_elem_of_singleton in Hin as ->. reflexivity.
Qed.

(** X5: a dataset whose patch size has more than three entries never
    returns a training patch: the three last axes of a shape cannot equal
    a longer tuple, so the assertion fails whenever it is reached. *)
Theorem X5_longer_patch_size_never_yields_a_training_patch
  self (w : World Patch) :
  (3 < length (CremiDataset.patch_size self))%nat ->
  ~ returns (random_training_patch self w).
Proof.
  intros Hlen [[patch w'] H].
  apply random_training_patch_inv in H as [_ (p & _ & Hshape)].
  rewrite <- Hshape, slice_last_length in Hlen. lia.
Qed.

(** X6: the oversized size has as many entries as the shortest of the patch
    size, three, and the shrink size; when the shrink size has exactly three
    entries its low and its high margins are the same three numbers, and
    each is added twice. *)
Theorem X6_oversized_size_is_cut_and_short_shrink_counts_twice :
  (forall patch_size shrink : tuple,
      length (patch_size_before_transform patch_size shrink) =
        Nat.min (length patch_size) (Nat.min 3 (length shrink))) /\
  (forall p0 p1 p2 s0 s1 s2 : Z,
      patch_size_before_transform [p0; p1; p2] [s0; s1; s2] =
        [p0 + s0 + s0; p1 + s1 + s1; p2 + s2 + s2]).
Proof.
  split.
  - intros patch_size shrink. unfold patch_size_before_transform.
    rewrite zip3_with_length, slice_to_length, slice_last_length. lia.
  - reflexivity.
Qed.

(** The 256 intensities next to the values stored for them. *)
Lemma normalized_increasing_256 :
  let table := map (fun z => (z, normalized z)) (map Z.of_nat (seq 0 256)) in
  forallb (fun a =>
    forallb (fun b => implb (fst a <? fst b) (lt (snd a) (snd b))) table)
    table = true.
Proof. vm_compute. reflexivity. Qed.

Lemma in_range_256 z :
  in_0_255 z ->
  In (z, normalized z)
     (map (fun z => (z, normalized z)) (map Z.of_nat (seq 0 256))).
Proof.
  intros [Hlo Hhi]. apply in_map_iff. exists z. split; [reflexivity|].
  apply in_map_iff. exists (Z.to_nat z).
  split; [lia|]. apply in_seq. lia.
Qed.

Lemma normalized_increasing (z1 z2 : Z) :
  in_0_255 z1 -> in_0_255 z2 -> z1 < z2 ->
  lt (normalized z1) (normalized z2) = true.
Proof.
  intros H1 H2 Hlt.
  pose proof normalized_increasing_256 as H. cbv zeta in H.
  rewrite forallb_forall in H. specialize (H _ (in_range_256 z1 H1)).
  rewrite forallb_forall in H. specialize (H _ (in_range_256 z2 H2)).
  cbn [fst snd] in H.
  apply Z.ltb_lt in Hlt. rewrite Hlt in H. exact H.
Qed.

Lemma load_volume_data file before v raw :
  load_volume file before = Ok v ->
  from_h5 file "volumes/raw" = Ok raw ->
  Array.data (GroundTruthVolume.image v) = map normalized (Array.data raw).
Proof.
  intros Hv Hraw.
  apply load_volume_inv in Hv as (raw' & label & Hraw' & _ & ->).
  rewrite Hraw in Hraw'. injection Hraw' as <-.
  cbn [GroundTruthVolume.image true_divide astype_float32 Array.data].
  now rewrite map_map.
Qed.

(** X7: loading keeps the order of the voxels of a volume: where the raw
    intensity at one place is smaller than at another, both within
    [0, 255], the stored value is strictly smaller too, so that different
    intensities stay different; wherever the raw intensity is 0 the stored
    value is 0, and wherever it is 255 the stored value is 1, exactly. *)
Theorem X7_normalization_keeps_the_order file before v raw :
  load_volume file before = Ok v ->
  from_h5 file "volumes/raw" = Ok raw ->
  (forall i j z1 z2,
      Array.data raw !! i = Some z1 ->
      Array.data raw !! j = Some z2 ->
      in_0_255 z1 -> in_0_255 z2 -> z1 < z2 ->
      exists x1 x2,
        Array.data (GroundTruthVolume.image v) !! i = Some x1 /\
        Array.data (GroundTruthVolume.image v) !! j = Some x2 /\
        lt x1 x2 = true) /\
  (forall i, Array.data raw !! i = Some 0 ->
     exists x q, Array.data (GroundTruthVolume.image v) !! i = Some x /\
                 to_Q x = Some q /\ (q == 0)%Q) /\
  (forall i, Array.data raw !! i = Some 255 ->
     exists x q, Array.data (GroundTruthVolume.image v) !! i = Some x /\
                 to_Q x = Some q /\ (q == 1)%Q).
Proof.
  intros Hv Hraw.
  rewrite (load_volume_data _ _ _ _ Hv Hraw).
  split; [|split].
  - intros i j z1 z2 Hi Hj H1 H2 Hlt.
    exists (normalized z1), (normalized z2).
    rewrite !list_lookup_fmap, Hi, Hj.
    split; [reflexivity|]. split; [reflexivity|].
    now apply normalized_increasing.
  - intros i Hi. exists (normalized 0), 0%Q.
    rewrite list_lookup_fmap, Hi. repeat split.
  - intros i Hi. exists (normalized 255), (8388608 # 8388608)%Q.
    rewrite list_lookup_fmap, Hi. repeat split.
Qed.

End CremiDatasetExtras.

Section ScenarioExtras.
Import Py Float Array CremiDataset.
Local Open Scope Z_scope.

Lemma X1_construction_only_appends_volumes_witness :
  w_patches (SpecModel.loaded [5; 4]%nat [6; 6; 6]) = [] /\
  w_tape (SpecModel.loaded [5; 4]%nat [6; 6; 6]) = [5; 4]%nat /\
  w_calls (SpecModel.loaded [5; 4]%nat [6; 6; 6]) = [].
Proof.
  apply (X1_construction_only_appends_volumes (C:=SpecModel.scenario)
           SpecModel.f64_0_9 (PyTuple [2; 2; 2]) (SpecModel.fresh [5; 4]%nat)
           (built (PyTuple [2; 2; 2]) 0)).
  vm_compute. reflexivity.
Defined.

Lemma X2_construction_raises_the_first_load_error_witness :
  __init__ (C:=SpecModel.scenario_without_C) SpecModel.f64_0_9
    (PyTuple [2; 2; 2]) (SpecModel.fresh []) = Raise AssertionError.
Proof.
  apply (X2_construction_raises_the_first_load_error
           (C:=SpecModel.scenario_without_C) SpecModel.f64_0_9
           (PyTuple [2; 2; 2]) (SpecModel.fresh []) [fileA; fileB] fileC []).
  - split; vm_compute; reflexivity.
  - reflexivity.
  - intros f Hf.
    repeat (apply elem_of_cons in Hf as [->|Hf]);
      [| |now apply elem_of_nil in Hf];
      apply is_ok_returns; vm_compute; reflexivity.
  - vm_compute. reflexivity.
Defined.

Lemma X4_training_never_draws_from_the_validation_volume_witness :
  exists volume,
    (volume = 1%nat \/ volume = 2%nat) /\
    volume ∉ validation_volumes (built (PyTuple [2; 2; 2]) 0).
Proof.
  destruct (X4_training_never_draws_from_the_validation_volume
              (C:=SpecModel.scenario)
              SpecModel.f64_0_9 (PyTuple [2; 2; 2]) (SpecModel.fresh [])
              (built (PyTuple [2; 2; 2]) 0) (SpecModel.loaded [] [6; 6; 6]))
    as [Htrain _].
  - vm_compute. reflexivity.
  - destruct (Htrain (SpecModel.loaded [5; 4; 3; 2]%nat [6; 6; 6]) 0%nat
                (after_stages (C:=SpecModel.scenario)
                   (SpecModel.loaded [5; 4; 3; 2]%nat [6; 6; 6]) 2
                   (SpecModel.cropped [2; 3; 2]) []))
      as (volume & _ & Hv & Hnot).
    + vm_compute. reflexivity.
    + exists volume. split; assumption.
Defined.

Lemma X5_longer_patch_size_never_yields_a_training_patch_witness :
  ~ returns (random_training_patch (C:=SpecModel.scenario)
               (built (PyTuple [2; 2; 2; 2]) 0)
               (SpecModel.loaded [5; 4; 3; 2]%nat [6; 6; 6])).
Proof.
  apply (X5_longer_patch_size_never_yields_a_training_patch
           (C:=SpecModel.scenario)).
  vm_compute. lia.
Defined.

Lemma X7_normalization_keeps_the_order_witness :
  exists x1 x2,
    Array.data (GroundTruthVolume.image (SpecModel.volume 1 [6; 6; 6]))
      !! 0%nat = Some x1 /\
    Array.data (GroundTruthVolume.image (SpecModel.volume 1 [6; 6; 6]))
      !! 1%nat = Some x2 /\
    lt x1 x2 = true.
Proof.
  apply (proj1 (X7_normalization_keeps_the_order (C:=SpecModel.scenario)
                  fileA [6; 6; 6] (SpecModel.volume 1 [6; 6; 6])
                  (SpecModel.raw_volume 1)
                  ltac:(vm_compute; reflexivity)
                  ltac:(vm_compute; reflexivity))
           0%nat 1%nat 1 38).
  - vm_compute. reflexivity.
  - vm_compute. reflexivity.
  - unfold in_0_255. lia.
  - unfold in_0_255. lia.
  - lia.
Defined.

End ScenarioExtras.

(* ===================================================================== *)
(** ** Further properties of the network *)
(* ===================================================================== *)

Section TorchListFacts.
Import Py Torch.
Local Open Scope N_scope.

Lemma split_last_snoc (lead : Size) (d : N) :
  split_last (lead ++ [d]) = Some (lead, d).
Proof.
  induction lead as [|a lead IH]; [reflexivity|].
  cbn [app split_last]. rewrite IH.
  destruct (lead ++ [d]) eqn:E; [|reflexivity].
  now destruct lead.
Qed.

Lemma split_last_inv (x lead : Size) (d : N) :
  split_last x = Some (lead, d) -> x = lead ++ [d].
Proof.
  revert lead. induction x as [|a x IH]; intros lead H; [discriminate|].
  cbn [split_last] in H. destruct x as [|b x].
  - injection H as <- <-. reflexivity.
  - destruct (split_last (b :: x)) as [[lead' d']|]; [|discriminate].
    injection H as <- <-. cbn [app]. f_equal. now apply IH.
Qed.

Lemma linear_last (i o : N) (x lead : Size) (d : N) :
  split_last x = Some (lead, d) ->
  linear i o x = if d =? i then Ok (lead ++ [o]) else Raise RuntimeError.
Proof. intros H. unfold linear. now rewrite H. Qed.

End TorchListFacts.

Section NetworkExtras.
Import Py Torch.
Local Open Scope N_scope.

(** X8: an attention block with at least one head maps a tensor of size
    (b, n, dim) to a tensor of the same size, with or without the output
    projection. *)
Theorem X8_attention_keeps_the_size (dim heads dim_head : N) a (b n : N) :
  Attention.__init__ dim heads dim_head = Ok a ->
  0 < heads ->
  Attention.forward a [b; n; dim] = Ok [b; n; dim].
Proof. intros Ha Hh. now apply (attention_forward dim heads dim_head). Qed.

Lemma X8_attention_keeps_the_size_witness :
  Attention.forward
    {| Attention.heads := 1;
       Attention.attend := Softmax;
       Attention.to_qkv := Linear 16 48;
       Attention.to_out := Identity |}
    [5; 7; 16] = Ok [5; 7; 16].
Proof.
  apply (X8_attention_keeps_the_size 16 1 16).
  - vm_compute. reflexivity.
  - reflexivity.
Defined.

(** X9: attention takes tensors with three axes only: any other number of
    axes raises a ValueError when the shape is unpacked, and a last axis
    that is not [dim] raises the RuntimeError of the first linear layer. *)
Theorem X9_attention_rejects_other_sizes (dim heads dim_head : N) a :
  Attention.__init__ dim heads dim_head = Ok a ->
  (forall x : Size, length x <> 3%nat ->
                    Attention.forward a x = Raise ValueError) /\
  (forall b n d : N, d <> dim ->
                     Attention.forward a [b; n; d] = Raise RuntimeError).
Proof.
  intros Ha. split.
  - intros x Hx. unfold Attention.forward.
    destruct x as [|x0 [|x1 [|x2 [|x3 x]]]]; try reflexivity.
    now contradiction Hx.
  - intros b n d Hd. revert Ha. unfold Attention.__init__.
    destruct (dim_head =? 0); [discriminate|].
    intros H. injection H as <-.
    unfold Attention.forward. cbn [Attention.to_qkv Torch.forward].
    unfold linear. cbn [split_last].
    destruct (N.eqb_spec d dim) as [->|_]; [now contradiction Hd|reflexivity].
Qed.

Lemma X9_attention_rejects_other_sizes_witness :
  Attention.forward
    {| Attention.heads := 1;
       Attention.attend := Softmax;
       Attention.to_qkv := Linear 16 48;
       Attention.to_out := Identity |}
    [5; 7; 2; 16] = Raise ValueError.
Proof.
  apply (X9_attention_rejects_other_sizes 16 1 16).
  - vm_compute. reflexivity.
  - cbn [length]. lia.
Defined.

(** X10: constructing an attention block raises a ZeroDivisionError exactly
    when [dim_head] is 0; a block that was constructed projects its output
    back to [dim] unless it has one head of width [dim], in which case the
    output is passed on as it is. *)
Theorem X10_attention_init (dim heads dim_head : N) :
  (dim_head = 0 <->
   Attention.__init__ dim heads dim_head = Raise ZeroDivisionError) /\
  (forall a, Attention.__init__ dim heads dim_head = Ok a ->
     Attention.heads a = heads /\
     (heads = 1 /\ dim_head = dim -> Attention.to_out a = Identity) /\
     (~ (heads = 1 /\ dim_head = dim) ->
      Attention.to_out a = Sequential [Linear (dim_head * heads) dim; Dropout])).
Proof.
  unfold Attention.__init__.
  destruct (N.eqb_spec dim_head 0) as [Hz|Hz].
  - split; [tauto|]. intros a H. discriminate.
  - split; [split; [tauto|discriminate]|].
    intros a H. injection H as <-.
    cbn [Attention.heads Attention.to_out].
    split; [reflexivity|]. split.
    + intros [-> ->]. now rewrite !N.eqb_refl.
    + intros Hn.
      destruct (N.eqb_spec heads 1) as [H1|H1];
        destruct (N.eqb_spec dim_head dim) as [H2|H2];
        cbn [andb negb]; try reflexivity.
      now contradiction Hn.
Qed.

Lemma X10_attention_init_witness :
  Attention.to_out
    {| Attention.heads := 1;
       Attention.attend := Softmax;
       Attention.to_qkv := Linear 16 48;
       Attention.to_out := Identity |} = Identity.
Proof.
  apply (proj2 (X10_attention_init 16 1 16)).
  - vm_compute. reflexivity.
  - split; reflexivity.
Defined.

(** X11: the feed-forward block works on tensors of any number of axes: it
    returns the size it was given when the last axis is [dim], and raises a
    RuntimeError when the last axis differs or when there is no axis. *)
Theorem X11_feed_forward_keeps_the_size (dim hidden_dim : N) :
  (forall lead : Size,
      FeedForward.forward (FeedForward.__init__ dim hidden_dim) (lead ++ [dim])
        = Ok (lead ++ [dim])) /\
  (forall (lead : Size) (d : N), d <> dim ->
      FeedForward.forward (FeedForward.__init__ dim hidden_dim) (lead ++ [d])
        = Raise RuntimeError) /\
  FeedForward.forward (FeedForward.__init__ dim hidden_dim) []
    = Raise RuntimeError.
Proof.
  unfold FeedForward.forward, FeedForward.__init__.
  cbn [FeedForward.net Torch.forward].
  split; [|split; [|reflexivity]].
  - intros lead.
    rewrite (linear_last _ _ _ _ _ (split_last_snoc lead dim)).
    rewrite N.eqb_refl. cbn [bind].
    rewrite (linear_last _ _ _ _ _ (split_last_snoc lead hidden_dim)).
    now rewrite N.eqb_refl.
  - intros lead d Hd.
    rewrite (linear_last _ _ _ _ _ (split_last_snoc lead d)).
    destruct (N.eqb_spec d dim) as [->|_]; [now contradiction Hd|reflexivity].
Qed.

Lemma X11_feed_forward_keeps_the_size_witness :
  FeedForward.forward (FeedForward.__init__ 16 32) [5; 7; 8]
    = Raise RuntimeError.
Proof.
  apply (proj1 (proj2 (X11_feed_forward_keeps_the_size 16 32)) [5; 7] 8).
  lia.
Defined.

(** X12: whatever it wraps, [PreNorm] raises the RuntimeError of its layer
    norm, before calling the wrapped block, when the last axis of its input
    is not [dim]. *)
Theorem X12_pre_norm_checks_the_last_axis
  (dim : N) (fn : PreNorm.fn_t) (lead : Size) (d : N) :
  d <> dim ->
  PreNorm.forward (PreNorm.__init__ dim fn) (lead ++ [d]) = Raise RuntimeError.
Proof.
  intros Hd. unfold PreNorm.forward, PreNorm.__init__.
  cbn [PreNorm.norm Torch.forward]. unfold layer_norm.
  rewrite split_last_snoc.
  destruct (N.eqb_spec d dim) as [->|_]; [now contradiction Hd|reflexivity].
Qed.

Lemma X12_pre_norm_checks_the_last_axis_witness :
  PreNorm.forward
    (PreNorm.__init__ 16 (PreNorm.feed_forward (FeedForward.__init__ 16 32)))
    [5; 7; 8] = Raise RuntimeError.
Proof.
  apply (X12_pre_norm_checks_the_last_axis 16 _ [5; 7] 8).
  lia.
Defined.




(** X14: a transformer with at least one head, or with no layer, maps a
    tensor of size (b, n, dim) to a tensor of the same size, whatever its
    depth. *)
Theorem X14_transformer_keeps_the_size
  (dim : N) (depth : nat) (heads dim_head mlp_dim : N) tr (b n : N) :
  Transformer.__init__ dim depth heads dim_head mlp_dim = Ok tr ->
  depth = O \/ 0 < heads ->
  Transformer.forward tr [b; n; dim] = Ok [b; n; dim].
Proof.
  intros Htr Hh.
  exact (transformer_forward dim depth heads dim_head mlp_dim tr b n Hh Htr).
Qed.

Lemma X14_transformer_keeps_the_size_witness :
  Transformer.forward
    {| Transformer.layers :=
         repeat
           (PreNorm.__init__ 16
              (PreNorm.attention
                 {| Attention.heads := 2;
                    Attention.attend := Softmax;
                    Attention.to_qkv := Linear 16 384;
                    Attention.to_out := Sequential [Linear 128 16; Dropout] |}),
            PreNorm.__init__ 16
              (PreNorm.feed_forward (FeedForward.__init__ 16 32)))
           3 |}
    [5; 7; 16] = Ok [5; 7; 16].
Proof.
  apply (X14_transformer_keeps_the_size 16 3 2 64 32).
  - vm_compute. reflexivity.
  - right. reflexivity.
Defined.

End NetworkExtras.

Section ViTExtras.
Import Py Torch.
Local Open Scope N_scope.

(** X15: construction of the network raises an AssertionError when
    [pos_embedding] is not one of the five names, and a ValueError when the
    name is accepted and [patch_size] does not have three entries; since the
    empty string is not one of the names, the test [pos_embedding == ''] is
    never true in a construction that gets to it. *)
Theorem X15_vit_init_rejects (kw : ViT.kwargs) :
  (~ In (ViT.pos_embedding kw) ViT.pos_embedding_types ->
   ViT.__init__ kw = Raise AssertionError) /\
  (In (ViT.pos_embedding kw) ViT.pos_embedding_types ->
   length (ViT.patch_size kw) <> 3%nat ->
   ViT.__init__ kw = Raise ValueError) /\
  (forall vit, ViT.__init__ kw = Ok vit ->
     ViT.pos_embedding kw <> EmptyString /\
     length (ViT.patch_size kw) = 3%nat).
Proof.
  split; [|split].
  - intros Hpe. unfold ViT.__init__.
    destruct (ViT.str_in (ViT.pos_embedding kw) ViT.pos_embedding_types) eqn:E.
    + apply str_in_In in E. contradiction.
    + reflexivity.
  - intros Hpe Hlen. unfold ViT.__init__.
    apply str_in_In in Hpe. rewrite Hpe. cbn [assert bind].
    destruct (ViT.patch_size kw) as [|pz [|py [|px [|? ?]]]];
      try reflexivity.
    now contradiction Hlen.
  - intros vit H.
    apply vit_init_inv in H as (Hpe & pz & py & px & tr & Hps & _).
    split; [|now rewrite Hps].
    intros Hempty. rewrite Hempty in Hpe.
    cbn in Hpe. intuition discriminate.
Qed.

Lemma X15_vit_init_rejects_witness :
  ViT.__init__ (ViT.with_pos_embedding ViT.small EmptyString)
    = Raise AssertionError.
Proof.
  apply (proj1 (X15_vit_init_rejects
                  (ViT.with_pos_embedding ViT.small EmptyString))).
  cbn. intuition discriminate.
Defined.

(** X16: the keyword argument [channels] is never read: two calls that
    differ in it alone construct the same network or raise the same
    exception. *)
Theorem X16_channels_is_ignored (kw : ViT.kwargs) (channels : N) :
  ViT.__init__ (ViT.with_channels kw channels) = ViT.__init__ kw.
Proof. reflexivity. Qed.

(** X17: [forward] looks at the number of values of a patch, not at its
    shape: for a network with at least one head (or no layer) whose sizes
    do not overflow, a tensor with six axes whose four last axes multiply
    to [in_channels * pz * py * px] is accepted, and the result always has
    the patch shape of the constructor. *)
Theorem X17_forward_accepts_any_patch_of_that_length
  (kw : ViT.kwargs) (vit : ViT.t) (pz py px b n c z y x : N) :
  ViT.__init__ kw = Ok vit ->
  ViT.patch_size kw = [pz; py; px] ->
  ViT.depth kw = O \/ 0 < ViT.heads kw ->
  ViT.no_overflow kw ->
  c * z * y * x = ViT.in_channels kw * pz * py * px ->
  ViT.forward vit [b; n; c; z; y; x]
    = Ok [b; n; ViT.out_channels kw; pz; py; px].
Proof. apply vit_forward. Qed.

Lemma X17_forward_accepts_any_patch_of_that_length_witness :
  ViT.forward
    {| ViT.embed_patch := Sequential [Rearrange flatten_patch; Linear 24 16];
       ViT.self_pos_embedding := None;
       ViT.dropout := Dropout;
       ViT.transformer :=
         {| Transformer.layers :=
              repeat
                (PreNorm.__init__ 16
                   (PreNorm.attention
                      {| Attention.heads := 2;
                         Attention.attend := Softmax;
                         Attention.to_qkv := Linear 16 384;
                         Attention.to_out := Sequential [Linear 128 16; Dropout] |}),
                 PreNorm.__init__ 16
                   (PreNorm.feed_forward (FeedForward.__init__ 16 32)))
                2 |};
       ViT.unembed_patch :=
         Sequential [Linear 16 72; Rearrange (unflatten_patch 3 2 3 4)] |}
    [5; 7; 2; 4; 3; 1]
  = Ok [5; 7; 3; 2; 3; 4].
Proof.
  apply (X17_forward_accepts_any_patch_of_that_length ViT.small _ 2 3 4).
  - vm_compute. reflexivity.
  - reflexivity.
  - right. reflexivity.
  - vm_compute. repeat split.
  - reflexivity.
Defined.

(** X18: a network that was constructed does not accept a tensor that does
    not have six axes: its first layer raises what a [Rearrange] layer
    raises on another number of axes. When its sizes do not overflow, a
    tensor with six axes whose four last axes do not multiply to
    [in_channels * pz * py * px] raises the RuntimeError of the first
    linear layer. *)
Theorem X18_forward_rejects_other_sizes (kw : ViT.kwargs) (vit : ViT.t) :
  ViT.__init__ kw = Ok vit ->
  (forall img : Size, length img <> 6%nat ->
                      ViT.forward vit img = Raise AxesError) /\
  (forall pz py px b n c z y x : N,
      ViT.patch_size kw = [pz; py; px] ->
      ViT.no_overflow kw ->
      c * z * y * x <> ViT.in_channels kw * pz * py * px ->
      ViT.forward vit [b; n; c; z; y; x] = Raise RuntimeError).
Proof.
  intros Hinit.
  apply vit_init_inv in Hinit
    as (_ & pz' & py' & px' & tr & Hps' & Htr & _ & _ & ->).
  unfold ViT.forward. cbn [ViT.embed_patch Torch.forward]. split.
  - intros img Himg.
    destruct img as [|a0 [|a1 [|a2 [|a3 [|a4 [|a5 [|a6 img]]]]]]];
      try reflexivity.
    now contradiction Himg.
  - intros pz py px b n c z y x Hps Hfit Hlen.
    rewrite Hps in Hps'. injection Hps' as <- <- <-.
    unfold ViT.no_overflow in Hfit. rewrite Hps in Hfit.
    destruct Hfit as (Hv & Hi & _).
    rewrite (times_product_small [pz; py; px]) by assumption.
    rewrite N2Z.id.
    cbn [rearrange bind]. unfold linear. cbn [split_last].
    destruct (N.eqb_spec (c * z * y * x)
                (fold_right N.mul 1 [pz; py; px] * ViT.in_channels kw))
      as [E|_]; [|reflexivity].
    exfalso. apply Hlen. rewrite E. cbn [fold_right]. lia.
Qed.

Lemma X18_forward_rejects_other_sizes_witness :
  ViT.forward
    {| ViT.embed_patch := Sequential [Rearrange flatten_patch; Linear 24 16];
       ViT.self_pos_embedding := None;
       ViT.dropout := Dropout;
       ViT.transformer :=
         {| Transformer.layers :=
              repeat
                (PreNorm.__init__ 16
                   (PreNorm.attention
                      {| Attention.heads := 2;
                         Attention.attend := Softmax;
                         Attention.to_qkv := Linear 16 384;
                         Attention.to_out := Sequential [Linear 128 16; Dropout] |}),
                 PreNorm.__init__ 16
                   (PreNorm.feed_forward (FeedForward.__init__ 16 32)))
                2 |};
       ViT.unembed_patch :=
         Sequential [Linear 16 72; Rearrange (unflatten_patch 3 2 3 4)] |}
    [5; 1; 2; 3; 4]
  = Raise AxesError.
Proof.
  apply (proj1 (X18_forward_rejects_other_sizes ViT.small _ eq_refl)).
  cbn [length]. lia.
Defined.

End ViTExtras.
